(** * PProfInspector: the pprof endpoints of claire-netty

    A shallow embedding of [src/netty/inspect/PProfInspector.cc].

    The handlers are written in a small state-and-fault monad.  The state
    holds the inspector's members (the waiter sets), the timers registered
    on event loops and the trace of calls made to the collaborators
    (profiler, HTTP layer, logging).  A run ends normally or in a fault:
    a failed [CHECK] or a member call through a null pointer.

    Each handler body that the source runs under [MutexLock lock(mutex_)]
    is one state transformer here: the lock makes it atomic with respect
    to the other handlers, so a sequential model of every critical section
    is what the mutex provides. *)

From Stdlib Require Import ZArith String Ascii List Lia Sorted Permutation.
From stdpp Require Import base decidable option list gmap sets strings pretty sorting.

Local Open Scope Z_scope.

(** ** Characters and strings of the C++ literals *)

Definition TAB : string := String "009"%char EmptyString.
Definition NL : string := String "010"%char EmptyString.

(** ** The C library number parsers used by the handlers *)

Module CLib.

(** [isspace] in the "C" locale: space, and the controls 9 to 13. *)
Definition isspace (c : ascii) : bool :=
  let n := Z.of_N (N_of_ascii c) in
  (n =? 32) || ((9 <=? n) && (n <=? 13)).

(** The value of a character as a digit, letters counting from 10. *)
Definition digit_value (c : ascii) : option Z :=
  let n := Z.of_N (N_of_ascii c) in
  if (48 <=? n) && (n <=? 57) then Some (n - 48)
  else if (97 <=? n) && (n <=? 122) then Some (n - 97 + 10)
  else if (65 <=? n) && (n <=? 90) then Some (n - 65 + 10)
  else None.

Definition digit_in_base (base : Z) (c : ascii) : option Z :=
  match digit_value c with
  | Some d => if d <? base then Some d else None
  | None => None
  end.

Fixpoint skip_spaces (s : string) : string :=
  match s with
  | String c s' => if isspace c then skip_spaces s' else s
  | EmptyString => s
  end.

(** An optional sign; [true] is a minus. *)
Definition read_sign (s : string) : bool * string :=
  match s with
  | String "-"%char s' => (true, s')
  | String "+"%char s' => (false, s')
  | _ => (false, s)
  end.

(** The digit loop of [strtol] and [strtoull]: accumulates the longest run
    of digits of the base and remembers whether there was any.  The
    accumulator is the mathematical value; the callers apply the range
    rules of the result type. *)
Fixpoint read_digits (base : Z) (s : string) (acc : Z) (any : bool) : Z * bool :=
  match s with
  | String c s' =>
      match digit_in_base base c with
      | Some d => read_digits base s' (acc * base + d) true
      | None => (acc, any)
      end
  | EmptyString => (acc, any)
  end.

(** In base 16 the prefix 0x or 0X is skipped when a hexadecimal digit
    follows it; otherwise the subject sequence is the lone 0. *)
Definition skip_hex_prefix (s : string) : string :=
  match s with
  | String "0"%char (String x (String d s')) =>
      if (Ascii.eqb x "x" || Ascii.eqb x "X")
         && (match digit_in_base 16 d with Some _ => true | None => false end)
      then String d s' else s
  | _ => s
  end.

(** The signed mathematical value read by [strtol (s, &end, 10)], [None]
    when no conversion is performed ([end == s]). *)
Definition strtol10_value (s : string) : option Z :=
  let '(neg, s1) := read_sign (skip_spaces s) in
  let '(v, any) := read_digits 10 s1 0 false in
  if any then Some (if neg then - v else v) else None.

Definition INT_MIN : Z := - 2147483648.
Definition INT_MAX : Z := 2147483647.
Definition ULLONG_MAX : Z := 18446744073709551615.

(** [std::stoi (str)]: calls [strtol (str.c_str (), &end, 10)], throws
    [std::invalid_argument] when no conversion was performed and
    [std::out_of_range] when [strtol] reports ERANGE or the value does not
    fit an [int].  [strtol] reports ERANGE exactly when the value does not
    fit a [long], so both cases are the test of the mathematical value
    against the range of [int]. *)
Inductive stoi_result :=
| stoi_ok (v : Z)
| stoi_invalid_argument
| stoi_out_of_range.

Definition stoi (str : string) : stoi_result :=
  match strtol10_value str with
  | None => stoi_invalid_argument
  | Some v => if (v <? INT_MIN) || (INT_MAX <? v) then stoi_out_of_range else stoi_ok v
  end.

(** [strtoull (s, NULL, 16)]: 0 when no conversion is performed,
    [ULLONG_MAX] on overflow, and the value negated in 64-bit unsigned
    arithmetic after a minus sign. *)
Definition strtoull16 (s : string) : Z :=
  let '(neg, s1) := read_sign (skip_spaces s) in
  let '(v, any) := read_digits 16 (skip_hex_prefix s1) 0 false in
  if negb any then 0
  else if ULLONG_MAX <? v then ULLONG_MAX
  else if neg then (- v) mod 2 ^ 64
  else v.

End CLib.

(** ** Data model *)

(** [HttpConnection::Id]. *)
Definition Id := Z.

Inductive Method := kInvalid | kGet | kPost | kHead | kPut | kDelete.

#[global] Instance Method_eq_dec : EqDecision Method.
Proof. solve_decision. Defined.

Definition k400BadRequest : Z := 400.

Record HttpRequest := {
  method : Method;
  get_parameter : string -> string;
  body : string
}.

Record HttpConnection := {
  id : Id;
  mutable_request : HttpRequest
}.

(** An event loop is known by its address. *)
Definition EventLoop := positive.

(** The member functions bound into timer callbacks. *)
Inductive Task := TaskOnProfileComplete | TaskOnHeapProfileComplete.

Record Timer := {
  timer_loop : EventLoop;
  timer_delay_ms : Z;
  timer_task : Task
}.

(** Calls that reach the collaborators, in program order. *)
Inductive Event :=
| LogError (msg : string)
| ProfilerStartCall (fname : string)
| ProfilerRegisterThreadCall
| ProfilerFlushCall
| ProfilerStopCall
| HeapProfilerStartCall (prefix : string)
| HeapProfilerStopCall
| ConnOnError (c : Id) (code : Z) (msg : string)
| ConnSend (c : Id) (data : string)
| ConnSendResponse (c : Id) (response_body : string)
| ConnShutdown (c : Id)
| ServerSend (c : Id) (data : string)
| ServerShutdown (c : Id).

#[global] Instance Event_eq_dec : EqDecision Event.
Proof. solve_decision. Defined.

(** What the collaborators answer.  These are the inputs of a handler run
    that do not come from the request. *)
Record Env := {
  (** [EventLoop::CurrentLoopInThisThread ()]; [None] is the null pointer. *)
  CurrentLoopInThisThread : option EventLoop;
  (** what [ProfilerStart (fname)] returns *)
  ProfilerStart_result : string -> bool;
  (** the contents of a file, [None] when it cannot be read *)
  file_contents : string -> option string;
  getenv : string -> option string;
  GetHeapSample : string;
  GetHeapProfile : string;
  (** [MallocMemoryStats (&blocks, &total, histogram)] *)
  stats_blocks : Z;
  stats_total : Z;
  stats_histogram : list Z;
  (** the constant of [malloc_extension.h] that sizes the histogram *)
  kMallocHistogramSize : nat;
  (** [Symbolizer::Symbolize (address, &name, &location)]: the name when
      the call returns true *)
  Symbolize : Z -> option string
}.

(** The inspector's members together with the timers and the trace.
    [heap_connections] is the set that [OnHeapProfileComplete] names
    without the trailing underscore; its declaration is not in this file. *)
Record State := {
  connections_ : gset Id;
  heap_connections_ : gset Id;
  heap_connections : gset Id;
  timers : list Timer;
  trace : list Event
}.

Definition set_connections_ (v : gset Id) (s : State) : State :=
  {| connections_ := v; heap_connections_ := heap_connections_ s;
     heap_connections := heap_connections s; timers := timers s; trace := trace s |}.
Definition set_heap_connections_ (v : gset Id) (s : State) : State :=
  {| connections_ := connections_ s; heap_connections_ := v;
     heap_connections := heap_connections s; timers := timers s; trace := trace s |}.
Definition set_heap_connections (v : gset Id) (s : State) : State :=
  {| connections_ := connections_ s; heap_connections_ := heap_connections_ s;
     heap_connections := v; timers := timers s; trace := trace s |}.
Definition set_timers (v : list Timer) (s : State) : State :=
  {| connections_ := connections_ s; heap_connections_ := heap_connections_ s;
     heap_connections := heap_connections s; timers := v; trace := trace s |}.
Definition set_trace (v : list Event) (s : State) : State :=
  {| connections_ := connections_ s; heap_connections_ := heap_connections_ s;
     heap_connections := heap_connections s; timers := timers s; trace := v |}.

(** ** The monad of handler runs *)

Inductive Fault :=
| CheckFailed (condition : string)
| NullDereference.

Inductive Outcome (A : Type) :=
| Normal (a : A)
| Crashed (f : Fault).
Arguments Normal {A} a.
Arguments Crashed {A} f.

Definition M (A : Type) : Type := State -> Outcome A * State.

Definition ret {A} (a : A) : M A := fun s => (Normal a, s).

Definition bind {A B} (m : M A) (k : A -> M B) : M B :=
  fun s =>
    match m s with
    | (Normal a, s') => k a s'
    | (Crashed f, s') => (Crashed f, s')
    end.

Definition crash {A} (f : Fault) : M A := fun s => (Crashed f, s).

Declare Scope pprof_scope.
Delimit Scope pprof_scope with pprof.
Notation "'do' x <- m ; k" := (bind m (fun x => k))
  (at level 10, x name, m at level 100, k at level 200) : pprof_scope.
Notation "m ;; k" := (bind m (fun _ => k))
  (at level 100, k at level 200, right associativity) : pprof_scope.
Local Open Scope pprof_scope.

Definition get_state : M State := fun s => (Normal s, s).
Definition modify (f : State -> State) : M unit := fun s => (Normal tt, f s).
Definition emit (e : Event) : M unit := modify (fun s => set_trace (trace s ++ [e]) s).

(** [CHECK (condition)] of claire's logging: the process is aborted when
    the condition is false. *)
Definition CHECK (condition : bool) (text : string) : M unit :=
  if condition then ret tt else crash (CheckFailed text).

(** [loop->RunAfter (delay, callback)]: a member call through the pointer
    [loop], which registers a one-shot timer on that loop. *)
Definition RunAfter (loop : option EventLoop) (delay_ms : Z) (task : Task) : M unit :=
  match loop with
  | None => crash NullDereference
  | Some l =>
      modify (fun s => set_timers (timers s ++
        [{| timer_loop := l; timer_delay_ms := delay_ms; timer_task := task |}]) s)
  end.

(** [ProfilerStart (fname)]: the call is made and its result returned. *)
Definition ProfilerStart (env : Env) (fname : string) : M bool :=
  emit (ProfilerStartCall fname);;
  ret (ProfilerStart_result env fname).

Definition is_null {A} (p : option A) : bool :=
  match p with None => true | Some _ => false end.

(** ** The handlers *)

Definition kProfileFile : string := "profile.dat".
Definition kDefaultProfileSeconds : Z := 30.
Definition kMaxProfileSeconds : Z := 600.

Definition GetProfileSeconds (parameter : string) : M Z :=
  if bool_decide (parameter = EmptyString) then ret kDefaultProfileSeconds
  else
    match CLib.stoi parameter with
    | CLib.stoi_ok s =>
        if (s <? 0) || (kMaxProfileSeconds <? s) then
          emit (LogError ("Invalid profile seconds parameter: " +:+ parameter));;
          ret (-1)
        else ret s
    | CLib.stoi_out_of_range =>
        emit (LogError ("Invalid profile seconds parameter: " +:+ parameter
                        +:+ ", out of range"));;
        ret (-1)
    | CLib.stoi_invalid_argument =>
        emit (LogError ("Invalid profile seconds parameter: " +:+ parameter
                        +:+ ", invalid argument"));;
        ret (-1)
    end.

(** The body of [if (connections_.empty ())] in [OnProfile]. *)
Definition OnProfile_first_joiner (env : Env) (seconds : Z) : M unit :=
  (do started <- ProfilerStart env kProfileFile;
   if started then emit ProfilerRegisterThreadCall
   else emit (LogError "ProfilerStart failed"));;
  CHECK (is_null (CurrentLoopInThisThread env)) "!EventLoop::CurrentLoopInThisThread()";;
  RunAfter (CurrentLoopInThisThread env) (seconds * 1000) TaskOnProfileComplete.

(** [connections_.insert (id)]. *)
Definition insert_connection (c : Id) : M unit :=
  modify (fun s => set_connections_ ({[ c ]} ∪ connections_ s) s).

(** The block of [OnProfile] that holds [mutex_]. *)
Definition OnProfile_locked (env : Env) (seconds : Z) (c : Id) : M unit :=
  do s <- get_state;
  (if bool_decide (connections_ s = ∅) then OnProfile_first_joiner env seconds
   else ret tt);;
  insert_connection c.

Definition OnProfile (env : Env) (connection : HttpConnection) : M unit :=
  let request := mutable_request connection in
  if negb (bool_decide (method request = kGet)) then
    emit (ConnOnError (id connection) k400BadRequest "Only accept Get method")
  else
    do seconds <- GetProfileSeconds (get_parameter request "seconds");
    if seconds <? 0 then
      emit (ConnOnError (id connection) k400BadRequest "Invalid Profile Seconds Parameter")
    else
      OnProfile_locked env seconds (id connection).

(** Iteration over a [std::set] visits the identifiers in ascending order. *)
Definition in_order (ids : gset Id) : list Id := merge_sort Z.le (elements ids).

(** The loop that sends the output to every connection and shuts it down. *)
Fixpoint broadcast (connections : list Id) (output : string) : M unit :=
  match connections with
  | [] => ret tt
  | connection :: rest =>
      emit (ServerSend connection output);;
      emit (ServerShutdown connection);;
      broadcast rest output
  end.

(** Modelled from the spec: [FileUtil::ReadFileToString], whose code is
    not in this file; a failure to read yields an empty body. *)
Definition ReadFileToString (env : Env) (path : string) : string :=
  match file_contents env path with
  | Some data => data
  | None => EmptyString
  end.

(** [connections.swap (connections_)] for a local set: the member takes
    the local's value and the local's new value is returned. *)
Definition swap_with_connections_ (local : gset Id) : M (gset Id) :=
  do s <- get_state;
  modify (set_connections_ local);;
  ret (connections_ s).

Definition OnProfileComplete (env : Env) : M unit :=
  emit ProfilerFlushCall;;
  emit ProfilerStopCall;;
  do connections <- swap_with_connections_ ∅;
  let output := ReadFileToString env kProfileFile in
  broadcast (in_order connections) output.

Definition OnHeap (env : Env) (connection : HttpConnection) : M unit :=
  match getenv env "TCMALLOC_SAMPLE_PARAMETER" with
  | None =>
      do s <- get_state;
      (if bool_decide (heap_connections_ s = ∅) then
         emit (HeapProfilerStartCall "/tmp/heap-profile.dat");;
         RunAfter (CurrentLoopInThisThread env) (30 * 1000) TaskOnHeapProfileComplete
       else ret tt);;
      modify (fun s => set_heap_connections_ ({[ id connection ]} ∪ heap_connections_ s) s)
  | Some _ =>
      let output := GetHeapSample env in
      emit (ConnSend (id connection) output);;
      emit (ConnShutdown (id connection))
  end.

(** [heap_connections.swap (connections_)]: the two sets exchange their
    contents. *)
Definition swap_heap_connections_with_connections_ : M unit :=
  modify (fun s =>
    set_connections_ (heap_connections s) (set_heap_connections (connections_ s) s)).

Definition OnHeapProfileComplete (env : Env) : M unit :=
  let output := GetHeapProfile env in
  emit HeapProfilerStopCall;;
  let connections : gset Id := ∅ in
  swap_heap_connections_with_connections_;;
  broadcast (in_order connections) output.

(** [s << x] for an integer: its decimal digits, with a minus sign when
    negative. *)
Definition put_int (s : string) (x : Z) : string := s +:+ pretty x.
Definition put_str (s : string) (x : string) : string := s +:+ x.

(** [histogram[i]] of the zero-initialised array that the allocator fills. *)
Definition histogram_at (env : Env) (i : Z) : Z :=
  nth (Z.to_nat i) (stats_histogram env) 0.

(** The loop [for (int i = 0; i < kMallocHistogramSize; ++i)], by the
    number of iterations that remain. *)
Fixpoint histogram_loop (env : Env) (remaining : nat) (i : Z) (s : string) : string :=
  match remaining with
  | O => s
  | S remaining' =>
      let s := put_str (put_int (put_str (put_int s i) " ") (histogram_at env i)) NL in
      histogram_loop env remaining' (i + 1) s
  end.

Definition OnHeapHistogram (env : Env) (connection : HttpConnection) : M unit :=
  let blocks := stats_blocks env in
  let total := stats_total env in
  let s := EmptyString in
  let s := put_str (put_int (put_str (put_int (put_str s "blocks ") blocks)
                                     (NL +:+ "total ")) total) NL in
  let s := histogram_loop env (kMallocHistogramSize env) 0 s in
  emit (ConnSend (id connection) s);;
  emit (ConnShutdown (id connection)).

(** [boost::algorithm::split (result, input, is_any_of (delimiters))] with
    the default [token_compress_off]: a scan that closes the current token
    at every delimiter, so that n delimiters give n + 1 tokens. *)
Fixpoint split_scan (is_delimiter : ascii -> bool) (input token : string) : list string :=
  match input with
  | EmptyString => [token]
  | String c rest =>
      if is_delimiter c then token :: split_scan is_delimiter rest EmptyString
      else split_scan is_delimiter rest (token +:+ String c EmptyString)
  end.

Fixpoint is_any_of (delimiters : string) (c : ascii) : bool :=
  match delimiters with
  | EmptyString => false
  | String d rest => Ascii.eqb c d || is_any_of rest c
  end.

Definition split (input delimiters : string) : list string :=
  split_scan (is_any_of delimiters) input EmptyString.

(** The loop of [OnSymbol] over the addresses, appending to the body of
    the response. *)
Fixpoint symbol_loop (env : Env) (addresses : list string) (response_body : string) : string :=
  match addresses with
  | [] => response_body
  | address :: rest =>
      let b := response_body +:+ address in
      let b := b +:+ TAB in
      let b :=
        match Symbolize env (CLib.strtoull16 address) with
        | Some name => (b +:+ name) +:+ NL
        | None => b +:+ ("unknown" +:+ NL)
        end in
      symbol_loop env rest b
  end.

Definition OnSymbol (env : Env) (connection : HttpConnection) : M unit :=
  let request := mutable_request connection in
  if bool_decide (method request = kGet) then
    emit (ConnSend (id connection) ("num_symbols: 1" +:+ NL));;
    emit (ConnShutdown (id connection))
  else if negb (bool_decide (method request = kPost)) then
    emit (ConnOnError (id connection) k400BadRequest "Only accept Post method")
  else
    let addresses := split (body request) "+" in
    let response_body := symbol_loop env addresses EmptyString in
    emit (ConnSendResponse (id connection) response_body).

(** ** Vocabulary of the statements *)

(** The calls made for one connection by the broadcast loop. *)
Definition delivery (output : string) (c : Id) : list Event :=
  [ServerSend c output; ServerShutdown c].

(** The number of calls of a trace that satisfy [p]. *)
Fixpoint count (p : Event -> bool) (events : list Event) : nat :=
  match events with
  | [] => O
  | e :: rest => ((if p e then 1 else 0) + count p rest)%nat
  end.

Definition is_send (c : Id) (output : string) (e : Event) : bool :=
  bool_decide (e = ServerSend c output).
Definition is_send_to (c : Id) (e : Event) : bool :=
  match e with ServerSend c' _ => bool_decide (c' = c) | _ => false end.
Definition is_shutdown_of (c : Id) (e : Event) : bool :=
  bool_decide (e = ServerShutdown c).

Definition once_if (b : bool) : nat := if b then 1%nat else 0%nat.

(** Strings of decimal digits. *)
Definition is_decimal_digit (c : ascii) : bool :=
  let n := Z.of_N (N_of_ascii c) in (48 <=? n) && (n <=? 57).

Fixpoint all_decimal_digits (s : string) : bool :=
  match s with
  | EmptyString => true
  | String c s' => is_decimal_digit c && all_decimal_digits s'
  end.

(** The number a string of decimal digits denotes, by positional weight. *)
Fixpoint decimal_value (s : string) : Z :=
  match s with
  | EmptyString => 0
  | String c s' =>
      (Z.of_N (N_of_ascii c) - 48) * 10 ^ Z.of_nat (String.length s') + decimal_value s'
  end.


(** The fault in which the first-joiner body ends: the [CHECK] fails when
    the thread has a current loop, and the member call goes through the
    null pointer when it has none. *)
Definition first_joiner_fault (env : Env) : Fault :=
  match CurrentLoopInThisThread env with
  | Some _ => CheckFailed "!EventLoop::CurrentLoopInThisThread()"
  | None => NullDereference
  end.

(** The calls made by the first-joiner body before it reaches the [CHECK]. *)
Definition first_joiner_calls (env : Env) : list Event :=
  [ProfilerStartCall kProfileFile;
   if ProfilerStart_result env kProfileFile then ProfilerRegisterThreadCall
   else LogError "ProfilerStart failed"].

(** ** Sample states, environments and requests *)

(** No session is running. *)
Definition idle : State :=
  {| connections_ := ∅; heap_connections_ := ∅; heap_connections := ∅;
     timers := []; trace := [] |}.

(** A handler thread of the HTTP server: it runs an event loop. *)
Definition loop_thread_env : Env :=
  {| CurrentLoopInThisThread := Some 1%positive;
     ProfilerStart_result := fun _ => true;
     file_contents := fun _ => Some "profile-bytes"%string;
     getenv := fun _ => None;
     GetHeapSample := "heap-sample";
     GetHeapProfile := "heap-profile";
     stats_blocks := 3;
     stats_total := 4096;
     stats_histogram := [2; 0; 1];
     kMallocHistogramSize := 4%nat;
     Symbolize := fun a => if a =? 26 then Some "main"%string else None |}.

Definition with_ProfilerStart_result (r : bool) (env : Env) : Env :=
  {| CurrentLoopInThisThread := CurrentLoopInThisThread env;
     ProfilerStart_result := fun _ => r;
     file_contents := file_contents env;
     getenv := getenv env;
     GetHeapSample := GetHeapSample env;
     GetHeapProfile := GetHeapProfile env;
     stats_blocks := stats_blocks env;
     stats_total := stats_total env;
     stats_histogram := stats_histogram env;
     kMallocHistogramSize := kMallocHistogramSize env;
     Symbolize := Symbolize env |}.

Definition with_getenv (r : option string) (env : Env) : Env :=
  {| CurrentLoopInThisThread := CurrentLoopInThisThread env;
     ProfilerStart_result := ProfilerStart_result env;
     file_contents := file_contents env;
     getenv := fun _ => r;
     GetHeapSample := GetHeapSample env;
     GetHeapProfile := GetHeapProfile env;
     stats_blocks := stats_blocks env;
     stats_total := stats_total env;
     stats_histogram := stats_histogram env;
     kMallocHistogramSize := kMallocHistogramSize env;
     Symbolize := Symbolize env |}.

Definition request_of (m : Method) (seconds body : string) : HttpRequest :=
  {| method := m;
     get_parameter := fun name => if String.eqb name "seconds" then seconds else EmptyString;
     body := body |}.

(** GET /pprof/profile?seconds=... on connection [c]. *)
Definition get_profile (c : Id) (seconds : string) : HttpConnection :=
  {| id := c; mutable_request := request_of kGet seconds EmptyString |}.

(** POST /pprof/symbol with the given body on connection [c]. *)
Definition post_symbol (c : Id) (body : string) : HttpConnection :=
  {| id := c; mutable_request := request_of kPost EmptyString body |}.

(** A state in which connection 3 waits for the running CPU session. *)
Definition cpu_session_running : State := set_connections_ {[ 3 ]} idle.

(** Connection 3 waits for the CPU profile and connection 7 for the heap
    profile. *)
Definition both_sessions_running : State :=
  {| connections_ := {[ 3 ]}; heap_connections_ := {[ 7 ]}; heap_connections := ∅;
     timers := []; trace := [] |}.

(** ** Lines of the response bodies *)

Definition concat_strings (l : list string) : string :=
  fold_right String.append EmptyString l.

(** The first two lines of the histogram response. *)
Definition histogram_header (env : Env) : string :=
  "blocks " +:+ pretty (stats_blocks env) +:+ NL
  +:+ "total " +:+ pretty (stats_total env) +:+ NL.

(** The line of bucket [i]. *)
Definition bucket_line (env : Env) (i : Z) : string :=
  pretty i +:+ " " +:+ pretty (histogram_at env i) +:+ NL.

(** The bucket indices 0, 1, ..., n - 1. *)
Definition bucket_indices (n : nat) : list Z := map Z.of_nat (seq 0 n).

(** The line of one address token of a symbol request. *)
Definition symbol_line (env : Env) (token : string) : string :=
  match Symbolize env (CLib.strtoull16 token) with
  | Some name => token +:+ TAB +:+ name +:+ NL
  | None => token +:+ TAB +:+ "unknown" +:+ NL
  end.

(** How often the character [c] occurs in [s]. *)
Fixpoint occurrences (c : ascii) (s : string) : nat :=
  match s with
  | EmptyString => O
  | String c' s' => ((if Ascii.eqb c' c then 1 else 0) + occurrences c s')%nat
  end.

(** ** The responders that keep no session *)

(** [std::replace (first, last, old_value, new_value)] over the characters
    of a string. *)
Fixpoint std_replace (s : string) (old_value new_value : ascii) : string :=
  match s with
  | EmptyString => EmptyString
  | String c rest =>
      String (if Ascii.eqb c old_value then new_value else c)
             (std_replace rest old_value new_value)
  end.

Definition OnCmdline (env : Env) (connection : HttpConnection) : M unit :=
  let output := ReadFileToString env "/proc/self/cmdline" in
  let output := std_replace output "000"%char "010"%char in
  emit (ConnSend (id connection) output);;
  emit (ConnShutdown (id connection)).

(** What [MallocExtension::instance ()] reports besides the histogram. *)
Record MallocExtension := {
  GetHeapGrowthStacks : string
}.

Definition OnGrowth (ext : MallocExtension) (connection : HttpConnection) : M unit :=
  let output := GetHeapGrowthStacks ext in
  emit (ConnSend (id connection) output);;
  emit (ConnShutdown (id connection)).

(** Handler runs one after the other, as the server makes them; a fault
    ends the sequence. *)
Fixpoint run_all (handlers : list (M unit)) : M unit :=
  match handlers with
  | [] => ret tt
  | h :: rest => h;; run_all rest
  end.

(** ** Vocabulary of the further statements *)

(** The calls [OnProfile] can make for connection [c]: log lines, the start
    of the profiler, and the error response with status 400. *)
Definition OnProfile_call (c : Id) (e : Event) : Prop :=
  match e with
  | LogError _ | ProfilerStartCall _ | ProfilerRegisterThreadCall => True
  | ConnOnError c' code _ => c' = c /\ code = 400
  | _ => False
  end.

(** The calls a responder makes on the connection [c] it answers. *)
Definition on_connection (c : Id) (e : Event) : Prop :=
  match e with
  | ConnSend c' _ | ConnSendResponse c' _ | ConnShutdown c' | ConnOnError c' _ _ => c' = c
  | _ => False
  end.

(** A responder that only answers: it returns normally and all it does is
    make calls on the connection [c]. *)
Definition only_answers (c : Id) (h : M unit) : Prop :=
  forall st, exists calls,
    h st = (Normal tt, set_trace (trace st ++ calls) st)
    /\ calls <> []
    /\ Forall (on_connection c) calls.

(** Strings of hexadecimal digits. *)
Definition is_hex_digit (c : ascii) : bool :=
  match CLib.digit_in_base 16 c with Some _ => true | None => false end.

Fixpoint all_hex_digits (s : string) : bool :=
  match s with
  | EmptyString => true
  | String c s' => is_hex_digit c && all_hex_digits s'
  end.

(** Strings of blanks, as [isspace] sees them. *)
Fixpoint all_blanks (s : string) : bool :=
  match s with
  | EmptyString => true
  | String c s' => CLib.isspace c && all_blanks s'
  end.

(** The text after a number: nothing, or something that does not start
    with a digit. *)
Definition ends_number (rest : string) : bool :=
  match rest with
  | EmptyString => true
  | String c _ => negb (is_decimal_digit c)
  end.

(** What [OnProfile] makes of a seconds parameter that reads as [v]. *)
Definition seconds_or_rejected (v : Z) : Z :=
  if bool_decide (0 <= v <= 600) then v else -1.

(** A command line as the kernel keeps it: every argument followed by a
    NUL character. *)
Definition cmdline_of (args : list string) : string :=
  concat_strings (map (fun a => a +:+ String "000"%char EmptyString) args).

(** A thread that runs no event loop. *)
Definition no_loop_env : Env :=
  {| CurrentLoopInThisThread := None;
     ProfilerStart_result := ProfilerStart_result loop_thread_env;
     file_contents := file_contents loop_thread_env;
     getenv := getenv loop_thread_env;
     GetHeapSample := GetHeapSample loop_thread_env;
     GetHeapProfile := GetHeapProfile loop_thread_env;
     stats_blocks := stats_blocks loop_thread_env;
     stats_total := stats_total loop_thread_env;
     stats_histogram := stats_histogram loop_thread_env;
     kMallocHistogramSize := kMallocHistogramSize loop_thread_env;
     Symbolize := Symbolize loop_thread_env |}.

(** A process started as [server --port 80]. *)
Definition server_env : Env :=
  {| CurrentLoopInThisThread := CurrentLoopInThisThread loop_thread_env;
     ProfilerStart_result := ProfilerStart_result loop_thread_env;
     file_contents := fun path =>
       if String.eqb path "/proc/self/cmdline"
       then Some (cmdline_of ["server"; "--port"; "80"]%string) else None;
     getenv := getenv loop_thread_env;
     GetHeapSample := GetHeapSample loop_thread_env;
     GetHeapProfile := GetHeapProfile loop_thread_env;
     stats_blocks := stats_blocks loop_thread_env;
     stats_total := stats_total loop_thread_env;
     stats_histogram := stats_histogram loop_thread_env;
     kMallocHistogramSize := kMallocHistogramSize loop_thread_env;
     Symbolize := Symbolize loop_thread_env |}.


(** The four ways a run of [OnProfile] can go. *)
Inductive OnProfile_run (env : Env) (connection : HttpConnection) (st : State) :
    Outcome unit * State -> Prop :=
| run_wrong_method :
    method (mutable_request connection) <> kGet ->
    OnProfile_run env connection st
      (Normal tt,
       set_trace (trace st ++ [ConnOnError (id connection) 400 "Only accept Get method"]) st)
| run_rejected msg :
    method (mutable_request connection) = kGet ->
    OnProfile_run env connection st
      (Normal tt,
       set_trace (trace st ++ [LogError msg;
                               ConnOnError (id connection) 400
                                 "Invalid Profile Seconds Parameter"]) st)
| run_first_joiner v :
    method (mutable_request connection) = kGet ->
    0 <= v <= 600 ->
    GetProfileSeconds (get_parameter (mutable_request connection) "seconds") st
      = (Normal v, st) ->
    connections_ st = ∅ ->
    OnProfile_run env connection st
      (Crashed (first_joiner_fault env), set_trace (trace st ++ first_joiner_calls env) st)
| run_joiner v :
    method (mutable_request connection) = kGet ->
    0 <= v <= 600 ->
    GetProfileSeconds (get_parameter (mutable_request connection) "seconds") st
      = (Normal v, st) ->
    connections_ st <> ∅ ->
    OnProfile_run env connection st
      (Normal tt, set_connections_ ({[ id connection ]} ∪ connections_ st) st).

(** A GET request whose seconds parameter is accepted. *)
Definition accepted_request (connection : HttpConnection) : Prop :=
  method (mutable_request connection) = kGet
  /\ exists v, 0 <= v
       /\ GetProfileSeconds (get_parameter (mutable_request connection) "seconds") idle
          = (Normal v, idle).

(** * Properties *)

Ltac count_delivery :=
  unfold delivery, count, is_send, is_send_to, is_shutdown_of;
  repeat case_bool_decide; simplify_eq; done.

(** ** Runs of the primitives *)

Lemma set_trace_id (s : State) : set_trace (trace s) s = s.
Proof. by destruct s. Qed.

Lemma set_trace_set_trace (t1 t2 : list Event) (s : State) :
  set_trace t2 (set_trace t1 s) = set_trace t2 s.
Proof. by destruct s. Qed.

Lemma emit_run (e : Event) (s : State) :
  emit e s = (Normal tt, set_trace (trace s ++ [e]) s).
Proof. reflexivity. Qed.

Lemma bind_normal {A B} (m : M A) (k : A -> M B) (s s' : State) (a : A) :
  m s = (Normal a, s') -> bind m k s = k a s'.
Proof. unfold bind. by intros ->. Qed.

Lemma bind_crashed {A B} (m : M A) (k : A -> M B) (s s' : State) (f : Fault) :
  m s = (Crashed f, s') -> bind m k s = (Crashed f, s').
Proof. unfold bind. by intros ->. Qed.

Lemma broadcast_run (connections : list Id) (output : string) (s : State) :
  broadcast connections output s
  = (Normal tt, set_trace (trace s ++ flat_map (delivery output) connections) s).
Proof.
  revert s. induction connections as [|c rest IH]; intros s; simpl.
  - by rewrite app_nil_r, set_trace_id.
  - unfold bind. rewrite !emit_run, IH. f_equal.
    rewrite !set_trace_set_trace. f_equal. destruct s; simpl.
    by rewrite <- !app_assoc.
Qed.

(** ** Iteration order of a waiter set *)

Lemma in_order_Permutation (ids : gset Id) : in_order ids ≡ₚ elements ids.
Proof. apply merge_sort_Permutation. Qed.

Lemma in_order_NoDup (ids : gset Id) : NoDup (in_order ids).
Proof. rewrite in_order_Permutation. apply NoDup_elements. Qed.

Lemma elem_of_in_order (ids : gset Id) (c : Id) : c ∈ in_order ids <-> c ∈ ids.
Proof. rewrite in_order_Permutation. apply elem_of_elements. Qed.

Lemma in_order_Sorted (ids : gset Id) : Sorted Z.le (in_order ids).
Proof. apply (Sorted_merge_sort Z.le). Qed.

Lemma in_order_empty : in_order ∅ = [].
Proof. unfold in_order. by rewrite elements_empty. Qed.

(** ** Counting the calls of a trace *)

Lemma count_deliveries_not_in (p : Id -> Event -> bool) (output : string) (c : Id) (l : list Id) :
  (forall c', c' <> c -> count (p c) (delivery output c') = O) ->
  c ∉ l -> count (p c) (flat_map (delivery output) l) = O.
Proof.
  intros Hother. induction l as [|c' l IH]; intros Hc; [done|].
  apply not_elem_of_cons in Hc as [Hne Hc].
  specialize (Hother c' (not_eq_sym Hne)). simpl in *.
  rewrite IH by done. lia.
Qed.

Lemma count_deliveries (p : Id -> Event -> bool) (output : string) (c : Id) (l : list Id) :
  (forall c', c' <> c -> count (p c) (delivery output c') = O) ->
  count (p c) (delivery output c) = 1%nat ->
  NoDup l ->
  count (p c) (flat_map (delivery output) l) = once_if (bool_decide (c ∈ l)).
Proof.
  intros Hother Hself Hnd. induction Hnd as [|c' l Hnotin Hnd IH].
  - done.
  - destruct (decide (c' = c)) as [->|Hne].
    + rewrite (bool_decide_eq_true_2 (c ∈ c :: l) (list_elem_of_here c l)).
      change (flat_map (delivery output) (c :: l))
        with ([ServerSend c output; ServerShutdown c] ++ flat_map (delivery output) l).
      pose proof (count_deliveries_not_in p output c l Hother Hnotin) as H0.
      simpl in *. rewrite H0. lia.
    + specialize (Hother c' Hne).
      change (flat_map (delivery output) (c' :: l))
        with ([ServerSend c' output; ServerShutdown c'] ++ flat_map (delivery output) l).
      simpl in *. rewrite IH.
      assert (bool_decide (c ∈ c' :: l) = bool_decide (c ∈ l)) as ->.
      { apply bool_decide_ext. rewrite elem_of_cons. intuition congruence. }
      lia.
Qed.

Lemma count_in_order (p : Id -> Event -> bool) (output : string) (c : Id) (ids : gset Id) :
  (forall c', c' <> c -> count (p c) (delivery output c') = O) ->
  count (p c) (delivery output c) = 1%nat ->
  count (p c) (flat_map (delivery output) (in_order ids)) = once_if (bool_decide (c ∈ ids)).
Proof.
  intros Hother Hself.
  rewrite (count_deliveries p output c _ Hother Hself (in_order_NoDup ids)).
  f_equal. apply bool_decide_ext, elem_of_in_order.
Qed.

Lemma is_send_other (output : string) (c c' : Id) :
  c' <> c -> count (is_send c output) (delivery output c') = O.
Proof. intros Hne. count_delivery. Qed.

Lemma is_send_self (output : string) (c : Id) :
  count (is_send c output) (delivery output c) = 1%nat.
Proof. count_delivery. Qed.

Lemma is_send_to_other (output : string) (c c' : Id) :
  c' <> c -> count (is_send_to c) (delivery output c') = O.
Proof. intros Hne. count_delivery. Qed.

Lemma is_send_to_self (output : string) (c : Id) :
  count (is_send_to c) (delivery output c) = 1%nat.
Proof. count_delivery. Qed.

Lemma is_shutdown_of_other (output : string) (c c' : Id) :
  c' <> c -> count (is_shutdown_of c) (delivery output c') = O.
Proof. intros Hne. count_delivery. Qed.

Lemma is_shutdown_of_self (output : string) (c : Id) :
  count (is_shutdown_of c) (delivery output c) = 1%nat.
Proof. count_delivery. Qed.

(** ** The completion tasks *)

Lemma OnProfileComplete_run (env : Env) (st : State) :
  OnProfileComplete env st
  = (Normal tt,
     set_trace (trace st ++ [ProfilerFlushCall; ProfilerStopCall]
                ++ flat_map (delivery (ReadFileToString env kProfileFile))
                            (in_order (connections_ st)))
               (set_connections_ ∅ st)).
Proof.
  unfold OnProfileComplete, swap_with_connections_, bind, get_state, modify, ret.
  rewrite !emit_run. simpl. rewrite broadcast_run. f_equal.
  destruct st; simpl. unfold set_trace, set_connections_; simpl.
  by rewrite <- !app_assoc.
Qed.

Lemma OnProfile_locked_idle (env : Env) (seconds : Z) (c : Id) (st : State) :
  connections_ st = ∅ ->
  OnProfile_locked env seconds c st
  = bind (OnProfile_first_joiner env seconds) (fun _ => insert_connection c) st.
Proof.
  intros Hidle. unfold OnProfile_locked, get_state.
  unfold bind at 1. by rewrite bool_decide_eq_true_2.
Qed.

Lemma OnHeapProfileComplete_run (env : Env) (st : State) :
  OnHeapProfileComplete env st
  = (Normal tt,
     set_trace (trace st ++ [HeapProfilerStopCall])
               (set_connections_ (heap_connections st)
                  (set_heap_connections (connections_ st) st))).
Proof.
  unfold OnHeapProfileComplete, swap_heap_connections_with_connections_, bind, modify.
  rewrite emit_run, in_order_empty. simpl. unfold ret.
  destruct st; simpl. unfold set_trace, set_connections_, set_heap_connections; simpl.
  done.
Qed.

(** C1.  What the heap completion task does instead: it sends to no
    connection and shuts none down, whatever waiters the heap session
    has; the heap session's waiter set is left as it was; and the CPU
    session's waiter set is exchanged with the set [heap_connections].
    So with connection 7 waiting for the heap profile and connection 3 for
    the CPU profile, the task serves neither, keeps 7 registered and
    removes 3 from the CPU session. *)
Theorem OnHeapProfileComplete_serves_no_waiter :
  (forall env st,
     let st' := snd (OnHeapProfileComplete env st) in
     fst (OnHeapProfileComplete env st) = Normal tt
     /\ trace st' = trace st ++ [HeapProfilerStopCall]
     /\ heap_connections_ st' = heap_connections_ st
     /\ connections_ st' = heap_connections st
     /\ heap_connections st' = connections_ st)
  /\ OnHeapProfileComplete loop_thread_env both_sessions_running
     = (Normal tt,
        {| connections_ := ∅; heap_connections_ := {[ 7 ]}; heap_connections := {[ 3 ]};
           timers := []; trace := [HeapProfilerStopCall] |}).
Proof.
  split.
  - intros env st. rewrite OnHeapProfileComplete_run. by destruct st.
  - rewrite OnHeapProfileComplete_run. reflexivity.
Qed.

(** ** Reading decimal numerals *)

Lemma digit_in_base_10_digit (c : ascii) :
  is_decimal_digit c = true ->
  CLib.digit_in_base 10 c = Some (Z.of_N (N_of_ascii c) - 48).
Proof.
  unfold is_decimal_digit, CLib.digit_in_base, CLib.digit_value.
  intros H. rewrite H.
  apply andb_true_iff in H as [H1 H2].
  apply Z.leb_le in H1. apply Z.leb_le in H2.
  destruct (Z.ltb_spec (Z.of_N (N_of_ascii c) - 48) 10); [done|lia].
Qed.

Lemma digit_in_base_10_non_digit (c : ascii) :
  is_decimal_digit c = false -> CLib.digit_in_base 10 c = None.
Proof.
  unfold is_decimal_digit, CLib.digit_in_base, CLib.digit_value.
  intros ->.
  repeat match goal with
         | |- context [if ?b then _ else _] => destruct b eqn:?
         end; try done;
    repeat match goal with
           | H : (_ && _) = true |- _ => apply andb_true_iff in H as [? ?]
           | H : (_ <=? _) = true |- _ => apply Z.leb_le in H
           | H : (_ <? _) = true |- _ => apply Z.ltb_lt in H
           end; lia.
Qed.

Lemma isspace_digit (c : ascii) : is_decimal_digit c = true -> CLib.isspace c = false.
Proof.
  unfold is_decimal_digit, CLib.isspace. intros H.
  apply andb_true_iff in H as [H1 H2].
  apply Z.leb_le in H1. apply Z.leb_le in H2.
  apply orb_false_iff. split.
  - apply Z.eqb_neq. lia.
  - apply andb_false_iff. right. apply Z.leb_gt. lia.
Qed.

Lemma read_sign_digit (c : ascii) (s : string) :
  is_decimal_digit c = true -> CLib.read_sign (String c s) = (false, String c s).
Proof.
  destruct c as [[] [] [] [] [] [] [] []]; intros H; try reflexivity;
    vm_compute in H; discriminate H.
Qed.

Lemma read_digits_stop (base : Z) (rest : string) (acc : Z) (any : bool) :
  match rest with
  | EmptyString => True
  | String c _ => CLib.digit_in_base base c = None
  end ->
  CLib.read_digits base rest acc any = (acc, any).
Proof. destruct rest as [|c rest]; simpl; [done|]. by intros ->. Qed.

Lemma string_length_app (s1 s2 : string) :
  String.length (s1 +:+ s2) = (String.length s1 + String.length s2)%nat.
Proof. induction s1 as [|c s1 IH]; simpl; [done|]. by rewrite IH. Qed.

Lemma read_digits_decimal (digits rest : string) (acc : Z) (any : bool) :
  all_decimal_digits digits = true ->
  CLib.read_digits 10 (digits +:+ rest) acc any
  = CLib.read_digits 10 rest
      (acc * 10 ^ Z.of_nat (String.length digits) + decimal_value digits)
      (any || negb (bool_decide (digits = EmptyString))).
Proof.
  revert acc any. induction digits as [|c digits IH]; intros acc any Hall.
  - simpl. rewrite orb_false_r. f_equal. lia.
  - simpl in Hall. apply andb_true_iff in Hall as [Hc Hall].
    change (String c digits +:+ rest) with (String c (digits +:+ rest)).
    simpl CLib.read_digits. rewrite (digit_in_base_10_digit c Hc), (IH _ _ Hall).
    rewrite orb_true_r. simpl decimal_value. simpl String.length.
    f_equal. rewrite Nat2Z.inj_succ, Z.pow_succ_r by lia. lia.
Qed.

Lemma decimal_value_nonneg (digits : string) :
  all_decimal_digits digits = true -> 0 <= decimal_value digits.
Proof.
  induction digits as [|c digits IH]; simpl; [lia|].
  intros [Hc Hall]%andb_true_iff. specialize (IH Hall).
  unfold is_decimal_digit in Hc. apply andb_true_iff in Hc as [H1 _].
  apply Z.leb_le in H1.
  assert (0 <= 10 ^ Z.of_nat (String.length digits)) by (apply Z.pow_nonneg; lia).
  nia.
Qed.


(** ** The seconds parameter *)

Lemma GetProfileSeconds_empty (st : State) :
  GetProfileSeconds EmptyString st = (Normal 30, st).
Proof. reflexivity. Qed.

Lemma GetProfileSeconds_in_range (parameter : string) (v : Z) (st : State) :
  parameter <> EmptyString ->
  CLib.stoi parameter = CLib.stoi_ok v ->
  0 <= v <= 600 ->
  GetProfileSeconds parameter st = (Normal v, st).
Proof.
  intros Hne Hstoi Hv. unfold GetProfileSeconds.
  rewrite bool_decide_eq_false_2 by done. rewrite Hstoi.
  unfold kMaxProfileSeconds.
  destruct (Z.ltb_spec v 0); [lia|]. destruct (Z.ltb_spec 600 v); [lia|]. done.
Qed.

Lemma GetProfileSeconds_rejected (parameter : string) (st : State) :
  parameter <> EmptyString ->
  (forall v, CLib.stoi parameter = CLib.stoi_ok v -> v < 0 \/ 600 < v) ->
  exists msg,
    GetProfileSeconds parameter st = (Normal (-1), set_trace (trace st ++ [LogError msg]) st).
Proof.
  intros Hne Hbad. unfold GetProfileSeconds.
  rewrite bool_decide_eq_false_2 by done.
  destruct (CLib.stoi parameter) as [v| |] eqn:Hstoi.
  - destruct (Hbad v eq_refl) as [Hlt|Hgt]; unfold kMaxProfileSeconds.
    + destruct (Z.ltb_spec v 0); [|lia]. simpl. eexists. reflexivity.
    + destruct (Z.ltb_spec 600 v); [|lia]. rewrite orb_true_r. eexists. reflexivity.
  - eexists. reflexivity.
  - eexists. reflexivity.
Qed.

(** ** The CPU endpoint *)

Lemma OnProfile_first_joiner_run (env : Env) (seconds : Z) (st : State) :
  OnProfile_first_joiner env seconds st
  = (Crashed (first_joiner_fault env),
     set_trace (trace st ++ first_joiner_calls env) st).
Proof.
  unfold OnProfile_first_joiner, ProfilerStart, first_joiner_fault, first_joiner_calls,
    CHECK, RunAfter, bind, ret, crash.
  rewrite emit_run.
  destruct (ProfilerStart_result env kProfileFile), (CurrentLoopInThisThread env);
    rewrite emit_run; simpl; rewrite set_trace_set_trace;
    destruct st; simpl; unfold set_trace; simpl; by rewrite <- app_assoc.
Qed.

Lemma OnProfile_locked_first_joiner_run (env : Env) (seconds : Z) (c : Id) (st : State) :
  connections_ st = ∅ ->
  OnProfile_locked env seconds c st
  = (Crashed (first_joiner_fault env),
     set_trace (trace st ++ first_joiner_calls env) st).
Proof.
  intros Hidle. rewrite OnProfile_locked_idle by done.
  apply bind_crashed, OnProfile_first_joiner_run.
Qed.

Lemma OnProfile_locked_joiner_run (env : Env) (seconds : Z) (c : Id) (st : State) :
  connections_ st <> ∅ ->
  OnProfile_locked env seconds c st
  = (Normal tt, set_connections_ ({[ c ]} ∪ connections_ st) st).
Proof.
  intros Hbusy. unfold OnProfile_locked, get_state, bind.
  by rewrite bool_decide_eq_false_2.
Qed.

Lemma OnProfile_locked_timers (env : Env) (seconds : Z) (c : Id) (st : State) :
  timers (snd (OnProfile_locked env seconds c st)) = timers st.
Proof.
  destruct (decide (connections_ st = ∅)) as [Hidle|Hbusy].
  - rewrite OnProfile_locked_first_joiner_run by done. by destruct st.
  - rewrite OnProfile_locked_joiner_run by done. by destruct st.
Qed.

Lemma OnProfile_accepted (env : Env) (connection : HttpConnection) (seconds : Z) (st : State) :
  method (mutable_request connection) = kGet ->
  GetProfileSeconds (get_parameter (mutable_request connection) "seconds") st
    = (Normal seconds, st) ->
  0 <= seconds ->
  OnProfile env connection st = OnProfile_locked env seconds (id connection) st.
Proof.
  intros Hget Hsec Hpos. unfold OnProfile.
  rewrite bool_decide_eq_true_2 by done. change (negb true) with false. cbv iota zeta.
  erewrite bind_normal by exact Hsec.
  by destruct (Z.ltb_spec seconds 0); [lia|].
Qed.

Lemma OnProfile_wrong_method (env : Env) (connection : HttpConnection) (st : State) :
  method (mutable_request connection) <> kGet ->
  OnProfile env connection st
  = (Normal tt,
     set_trace (trace st ++ [ConnOnError (id connection) 400 "Only accept Get method"]) st).
Proof.
  intros Hget. unfold OnProfile. by rewrite bool_decide_eq_false_2.
Qed.

Lemma OnProfile_rejected (env : Env) (connection : HttpConnection) (st : State) :
  let parameter := get_parameter (mutable_request connection) "seconds" in
  method (mutable_request connection) = kGet ->
  parameter <> EmptyString ->
  (forall v, CLib.stoi parameter = CLib.stoi_ok v -> v < 0 \/ 600 < v) ->
  exists msg,
    OnProfile env connection st
    = (Normal tt,
       set_trace (trace st ++ [LogError msg;
                               ConnOnError (id connection) 400
                                 "Invalid Profile Seconds Parameter"]) st).
Proof.
  intros parameter Hget Hne Hbad.
  destruct (GetProfileSeconds_rejected parameter st Hne Hbad) as [msg Hmsg].
  exists msg. unfold OnProfile.
  rewrite bool_decide_eq_true_2 by done. change (negb true) with false. cbv iota zeta.
  fold parameter. erewrite bind_normal by exact Hmsg.
  simpl. rewrite emit_run, set_trace_set_trace.
  destruct st; simpl. unfold set_trace; simpl. by rewrite <- app_assoc.
Qed.

Lemma OnProfile_timers (env : Env) (connection : HttpConnection) (st : State) :
  timers (snd (OnProfile env connection st)) = timers st.
Proof.
  destruct (decide (method (mutable_request connection) = kGet)) as [Hget|Hget].
  - unfold OnProfile. rewrite bool_decide_eq_true_2 by done. change (negb true) with false. cbv iota zeta.
    unfold GetProfileSeconds.
    set (parameter := get_parameter (mutable_request connection) "seconds").
    assert (Hlog : forall msg (st0 : State),
      timers st0 = timers st ->
      timers (snd (bind (bind (emit (LogError msg)) (fun _ => ret (-1)))
        (fun seconds => if seconds <? 0
           then emit (ConnOnError (id connection) k400BadRequest
                        "Invalid Profile Seconds Parameter")
           else OnProfile_locked env seconds (id connection)) st0)) = timers st).
    { intros msg st0 H0. unfold bind, ret. by rewrite !emit_run. }
    case_bool_decide.
    + unfold bind, ret, kDefaultProfileSeconds. simpl. apply OnProfile_locked_timers.
    + destruct (CLib.stoi parameter) as [v| |].
      * destruct ((v <? 0) || (kMaxProfileSeconds <? v)) eqn:Hrange.
        -- by apply Hlog.
        -- unfold bind, ret. apply orb_false_iff in Hrange as [-> _].
           apply OnProfile_locked_timers.
      * by apply Hlog.
      * by apply Hlog.
  - rewrite OnProfile_wrong_method by done. by destruct st.
Qed.

(** ** Requests to the CPU endpoint *)

(** C4.  An empty seconds parameter gives 30 and a parameter that
    [std::stoi] reads as a value of [0, 600] gives that value.  When the
    parameter is not empty and either is not read by [std::stoi] or is read
    as a value outside [0, 600], a GET request is answered at once with
    status 400 and nothing else happens: besides the log line and the
    error response the state is the one before the call, so no profiler is
    started, no timer is registered and no waiter is added.  A request
    whose method is not GET is answered with status 400 in the same way,
    whatever its parameter. *)
Theorem OnProfile_seconds_parameter (env : Env) (connection : HttpConnection) (st : State) :
  let parameter := get_parameter (mutable_request connection) "seconds" in
  (parameter = EmptyString ->
     GetProfileSeconds parameter st = (Normal 30, st))
  /\ (forall v, parameter <> EmptyString ->
        CLib.stoi parameter = CLib.stoi_ok v -> 0 <= v <= 600 ->
        GetProfileSeconds parameter st = (Normal v, st))
  /\ (method (mutable_request connection) = kGet ->
      parameter <> EmptyString ->
      (forall v, CLib.stoi parameter = CLib.stoi_ok v -> v < 0 \/ 600 < v) ->
      exists msg,
        OnProfile env connection st
        = (Normal tt,
           set_trace (trace st ++ [LogError msg;
                                   ConnOnError (id connection) 400
                                     "Invalid Profile Seconds Parameter"]) st))
  /\ (method (mutable_request connection) <> kGet ->
      OnProfile env connection st
      = (Normal tt,
         set_trace (trace st ++ [ConnOnError (id connection) 400
                                   "Only accept Get method"]) st)).
Proof.
  intros parameter. split; [|split; [|split]].
  - intros ->. apply GetProfileSeconds_empty.
  - intros v. apply GetProfileSeconds_in_range.
  - apply OnProfile_rejected.
  - apply OnProfile_wrong_method.
Qed.

Lemma OnProfile_seconds_parameter_witness :
  GetProfileSeconds EmptyString idle = (Normal 30, idle)
  /\ GetProfileSeconds "45" idle = (Normal 45, idle)
  /\ (exists msg,
       OnProfile loop_thread_env (get_profile 7 "601") idle
       = (Normal tt,
          set_trace (trace idle ++ [LogError msg;
                                    ConnOnError 7 400 "Invalid Profile Seconds Parameter"])
                    idle))
  /\ OnProfile loop_thread_env (post_symbol 7 "") idle
     = (Normal tt, set_trace (trace idle ++ [ConnOnError 7 400 "Only accept Get method"]) idle).
Proof.
  split; [|split; [|split]].
  - apply (proj1 (OnProfile_seconds_parameter loop_thread_env (get_profile 7 "") idle)).
    reflexivity.
  - apply (proj1 (proj2 (OnProfile_seconds_parameter loop_thread_env (get_profile 7 "45") idle))
             45); [discriminate|reflexivity|lia].
  - apply (proj1 (proj2 (proj2 (OnProfile_seconds_parameter loop_thread_env
                                  (get_profile 7 "601") idle))));
      [reflexivity|discriminate|].
    intros v Hv. vm_compute in Hv. injection Hv as <-. right. lia.
  - apply (proj2 (proj2 (proj2 (OnProfile_seconds_parameter loop_thread_env
                                  (post_symbol 7 "") idle)))).
    discriminate.
Defined.




(** C5.  In a state without waiters the locked block of [OnProfile] never
    completes.  When the calling thread has a current event loop the
    [CHECK] that it has none fails; when it has none the scheduling call
    goes through the null pointer. *)
Theorem OnProfile_first_joiner_check_or_null (env : Env) (seconds : Z) (c : Id) (st : State) :
  connections_ st = ∅ ->
  fst (OnProfile_locked env seconds c st) = Crashed (first_joiner_fault env)
  /\ (forall loop, CurrentLoopInThisThread env = Some loop ->
        first_joiner_fault env = CheckFailed "!EventLoop::CurrentLoopInThisThread()")
  /\ (CurrentLoopInThisThread env = None -> first_joiner_fault env = NullDereference).
Proof.
  intros Hidle. rewrite OnProfile_locked_first_joiner_run by done.
  unfold first_joiner_fault. split; [done|]. split.
  - by intros loop ->.
  - by intros ->.
Qed.

Lemma OnProfile_first_joiner_check_or_null_witness :
  connections_ idle = ∅
  /\ fst (OnProfile_locked loop_thread_env 30 7 idle) = Crashed (first_joiner_fault loop_thread_env)
  /\ first_joiner_fault loop_thread_env = CheckFailed "!EventLoop::CurrentLoopInThisThread()".
Proof.
  split; [reflexivity|].
  destruct (OnProfile_first_joiner_check_or_null loop_thread_env 30 7 idle eq_refl)
    as (Hfault & Hcheck & _).
  split; [exact Hfault|]. apply (Hcheck 1%positive). reflexivity.
Defined.

(** C2.  No run of [OnProfile] registers a timer, so the request that opens
    a window schedules no completion task: on a server thread, in the idle
    state, GET /pprof/profile?seconds=5 starts the profiler and then stops
    at the failed [CHECK], before [RunAfter] and before the connection is
    inserted. *)
Theorem OnProfile_schedules_no_completion_task :
  (forall env connection st, timers (snd (OnProfile env connection st)) = timers st)
  /\ OnProfile loop_thread_env (get_profile 7 "5") idle
     = (Crashed (CheckFailed "!EventLoop::CurrentLoopInThisThread()"),
        set_trace [ProfilerStartCall "profile.dat"; ProfilerRegisterThreadCall] idle).
Proof.
  split; [apply OnProfile_timers|reflexivity].
Qed.

(** C7.  When [ProfilerStart] fails in a state without waiters, the
    failure is logged and the handler goes on to the scheduling step, where
    it stops as in every first-joiner run: no timer is registered and the
    connection is not inserted. *)
Theorem OnProfile_start_failure_logged_then_fault
    (env : Env) (connection : HttpConnection) (seconds : Z) (st : State) :
  method (mutable_request connection) = kGet ->
  GetProfileSeconds (get_parameter (mutable_request connection) "seconds") st
    = (Normal seconds, st) ->
  0 <= seconds ->
  connections_ st = ∅ ->
  ProfilerStart_result env kProfileFile = false ->
  OnProfile env connection st
  = (Crashed (first_joiner_fault env),
     set_trace (trace st ++ [ProfilerStartCall kProfileFile;
                             LogError "ProfilerStart failed"]) st)
  /\ timers (snd (OnProfile env connection st)) = timers st
  /\ connections_ (snd (OnProfile env connection st)) = ∅.
Proof.
  intros Hget Hsec Hpos Hidle Hfail.
  rewrite (OnProfile_accepted env connection seconds st Hget Hsec Hpos).
  rewrite OnProfile_locked_first_joiner_run by done.
  unfold first_joiner_calls. rewrite Hfail. by destruct st.
Qed.

Lemma OnProfile_start_failure_logged_then_fault_witness :
  OnProfile (with_ProfilerStart_result false loop_thread_env) (get_profile 7 "5") idle
  = (Crashed (CheckFailed "!EventLoop::CurrentLoopInThisThread()"),
     set_trace [ProfilerStartCall "profile.dat"; LogError "ProfilerStart failed"] idle).
Proof.
  refine (proj1 (OnProfile_start_failure_logged_then_fault
           (with_ProfilerStart_result false loop_thread_env) (get_profile 7 "5") 5 idle
           _ _ _ _ _)).
  - reflexivity.
  - reflexivity.
  - lia.
  - reflexivity.
  - reflexivity.
Defined.

(** ** The heap endpoint *)

(** C6.  With TCMALLOC_SAMPLE_PARAMETER set, [OnHeap] sends the current
    heap sample on the connection and shuts it down, and changes neither
    waiter set nor the timers.  Without it, a request that finds heap
    waiters only joins them; a request that finds none, on a thread with a
    current event loop, starts the heap profiler, registers the heap
    completion task 30000 ms ahead on that loop, and becomes the first
    waiter.  The CPU session's waiter set is not touched. *)
Theorem OnHeap_immediate_or_session (env : Env) (connection : HttpConnection) (st : State) :
  (forall v, getenv env "TCMALLOC_SAMPLE_PARAMETER" = Some v ->
     OnHeap env connection st
     = (Normal tt,
        set_trace (trace st ++ [ConnSend (id connection) (GetHeapSample env);
                                ConnShutdown (id connection)]) st))
  /\ (getenv env "TCMALLOC_SAMPLE_PARAMETER" = None ->
      heap_connections_ st <> ∅ ->
      OnHeap env connection st
      = (Normal tt, set_heap_connections_ ({[ id connection ]} ∪ heap_connections_ st) st))
  /\ (forall loop,
      getenv env "TCMALLOC_SAMPLE_PARAMETER" = None ->
      heap_connections_ st = ∅ ->
      CurrentLoopInThisThread env = Some loop ->
      OnHeap env connection st
      = (Normal tt,
         set_heap_connections_ ({[ id connection ]} ∪ heap_connections_ st)
           (set_timers (timers st ++ [{| timer_loop := loop; timer_delay_ms := 30000;
                                         timer_task := TaskOnHeapProfileComplete |}])
              (set_trace (trace st ++ [HeapProfilerStartCall "/tmp/heap-profile.dat"]) st)))).
Proof.
  split; [|split].
  - intros v Henv. unfold OnHeap. rewrite Henv. unfold bind. rewrite !emit_run.
    rewrite set_trace_set_trace. destruct st; simpl. unfold set_trace; simpl.
    by rewrite <- app_assoc.
  - intros Henv Hbusy. unfold OnHeap. rewrite Henv. unfold bind, get_state.
    by rewrite bool_decide_eq_false_2.
  - intros loop Henv Hidle Hloop. unfold OnHeap. rewrite Henv. unfold bind, get_state.
    rewrite bool_decide_eq_true_2 by done. rewrite emit_run, Hloop. simpl.
    unfold modify. by destruct st.
Qed.

Lemma OnHeap_immediate_or_session_witness :
  OnHeap (with_getenv (Some "524288"%string) loop_thread_env) (get_profile 7 "") idle
  = (Normal tt, set_trace [ConnSend 7 "heap-sample"; ConnShutdown 7] idle)
  /\ OnHeap loop_thread_env (get_profile 7 "") (set_heap_connections_ {[ 3 ]} idle)
     = (Normal tt, set_heap_connections_ ({[ 7 ]} ∪ {[ 3 ]}) (set_heap_connections_ {[ 3 ]} idle))
  /\ OnHeap loop_thread_env (get_profile 7 "") idle
     = (Normal tt,
        set_heap_connections_ ({[ 7 ]} ∪ ∅)
          (set_timers [{| timer_loop := 1%positive; timer_delay_ms := 30000;
                          timer_task := TaskOnHeapProfileComplete |}]
             (set_trace [HeapProfilerStartCall "/tmp/heap-profile.dat"] idle))).
Proof.
  split; [|split].
  - apply (proj1 (OnHeap_immediate_or_session
                    (with_getenv (Some "524288"%string) loop_thread_env)
                    (get_profile 7 "") idle) "524288"%string).
    reflexivity.
  - refine (proj1 (proj2 (OnHeap_immediate_or_session loop_thread_env (get_profile 7 "")
                            (set_heap_connections_ {[ 3 ]} idle))) _ _).
    + reflexivity.
    + simpl. apply (non_empty_inhabited_L 3). set_solver.
  - apply (proj2 (proj2 (OnHeap_immediate_or_session loop_thread_env (get_profile 7 "") idle))
             1%positive); reflexivity.
Defined.

(** ** The histogram endpoint *)

Lemma string_app_assoc (s1 s2 s3 : string) : (s1 +:+ s2) +:+ s3 = s1 +:+ (s2 +:+ s3).
Proof.
  induction s1 as [|c s1 IH]; [done|].
  change (String c ((s1 +:+ s2) +:+ s3) = String c (s1 +:+ (s2 +:+ s3))).
  by rewrite IH.
Qed.

Lemma string_app_nil_r (s : string) : s +:+ EmptyString = s.
Proof.
  induction s as [|c s IH]; [done|].
  change (String c (s +:+ EmptyString) = String c s). by rewrite IH.
Qed.

Lemma histogram_loop_lines (env : Env) (n a : nat) (s : string) :
  histogram_loop env n (Z.of_nat a) s
  = s +:+ concat_strings (map (bucket_line env) (map Z.of_nat (seq a n))).
Proof.
  revert a s. induction n as [|n IH]; intros a s.
  - simpl. by rewrite string_app_nil_r.
  - simpl histogram_loop.
    replace (Z.of_nat a + 1) with (Z.of_nat (S a)) by lia.
    rewrite IH. unfold put_str, put_int, bucket_line. simpl seq. simpl map.
    simpl concat_strings. by rewrite !string_app_assoc.
Qed.

Lemma bucket_indices_length (n : nat) : length (bucket_indices n) = n.
Proof. unfold bucket_indices. by rewrite length_map, length_seq. Qed.

Lemma bucket_indices_lookup (n j : nat) :
  (j < n)%nat -> bucket_indices n !! j = Some (Z.of_nat j).
Proof.
  intros Hj. unfold bucket_indices. rewrite list_lookup_fmap.
  by rewrite lookup_seq_lt.
Qed.

(** C9.  The body of the histogram response is the line of the block
    count, the line of the total, and then one line per bucket, index and
    count separated by a space: as many lines as [kMallocHistogramSize],
    the j-th of them for bucket j, so that the indices ascend from 0 in
    steps of one.  The body is sent once and the connection shut down. *)
Theorem OnHeapHistogram_body (env : Env) (connection : HttpConnection) (st : State) :
  let indices := bucket_indices (kMallocHistogramSize env) in
  let lines := map (bucket_line env) indices in
  OnHeapHistogram env connection st
  = (Normal tt,
     set_trace (trace st ++ [ConnSend (id connection)
                               (histogram_header env +:+ concat_strings lines);
                             ConnShutdown (id connection)]) st)
  /\ histogram_header env
     = "blocks " +:+ pretty (stats_blocks env) +:+ NL
       +:+ "total " +:+ pretty (stats_total env) +:+ NL
  /\ length lines = kMallocHistogramSize env
  /\ (forall j, (j < kMallocHistogramSize env)%nat ->
        lines !! j
        = Some (pretty (Z.of_nat j) +:+ " " +:+ pretty (histogram_at env (Z.of_nat j)) +:+ NL)).
Proof.
  intros indices lines. split; [|split; [|split]].
  - unfold OnHeapHistogram, bind. rewrite !emit_run, set_trace_set_trace.
    rewrite (histogram_loop_lines env (kMallocHistogramSize env) 0).
    unfold put_str, put_int, histogram_header. fold (bucket_indices (kMallocHistogramSize env)).
    fold indices. fold lines.
    f_equal. destruct st; simpl. unfold set_trace; simpl.
    rewrite <- app_assoc. simpl. do 3 f_equal.
    change (EmptyString +:+ "blocks ") with "blocks "%string.
    by rewrite !string_app_assoc.
  - reflexivity.
  - unfold lines, indices. by rewrite length_map, bucket_indices_length.
  - intros j Hj. unfold lines, indices.
    rewrite list_lookup_fmap, bucket_indices_lookup by done. reflexivity.
Qed.

Lemma OnHeapHistogram_body_witness :
  trace (snd (OnHeapHistogram loop_thread_env (get_profile 7 "") idle))
  = [ConnSend 7 ("blocks 3" +:+ NL +:+ "total 4096" +:+ NL
                 +:+ "0 2" +:+ NL +:+ "1 0" +:+ NL +:+ "2 1" +:+ NL +:+ "3 0" +:+ NL);
     ConnShutdown 7]
  /\ map (bucket_line loop_thread_env) (bucket_indices (kMallocHistogramSize loop_thread_env))
       !! 2%nat
     = Some ("2 1" +:+ NL).
Proof.
  destruct (OnHeapHistogram_body loop_thread_env (get_profile 7 "") idle)
    as (Hrun & _ & _ & Hline).
  split.
  - rewrite Hrun. vm_compute. reflexivity.
  - rewrite (Hline 2%nat); [reflexivity|]. simpl. lia.
Defined.

(** ** The symbol endpoint *)

Lemma symbol_loop_lines (env : Env) (addresses : list string) (response_body : string) :
  symbol_loop env addresses response_body
  = response_body +:+ concat_strings (map (symbol_line env) addresses).
Proof.
  revert response_body. induction addresses as [|address rest IH]; intros response_body.
  - simpl. by rewrite string_app_nil_r.
  - simpl symbol_loop. rewrite IH. simpl map. simpl concat_strings.
    unfold symbol_line.
    destruct (Symbolize env (CLib.strtoull16 address)); by rewrite !string_app_assoc.
Qed.

Lemma split_scan_not_nil (is_delimiter : ascii -> bool) (input token : string) :
  split_scan is_delimiter input token <> [].
Proof.
  revert token. induction input as [|c rest IH]; intros token; simpl; [done|].
  destruct (is_delimiter c); [done|apply IH].
Qed.

Lemma concat_cons_not_nil (sep x : string) (l : list string) :
  l <> [] -> String.concat sep (x :: l) = x +:+ sep +:+ String.concat sep l.
Proof. by destruct l. Qed.

Lemma is_any_of_plus (c : ascii) : is_any_of "+" c = Ascii.eqb c "+".
Proof. simpl. by rewrite orb_false_r. Qed.

Lemma split_scan_join (input token : string) :
  String.concat "+" (split_scan (is_any_of "+") input token) = token +:+ input.
Proof.
  revert token. induction input as [|c rest IH]; intros token.
  - simpl. by rewrite string_app_nil_r.
  - cbn [split_scan]. rewrite is_any_of_plus.
    destruct (Ascii.eqb_spec c "+") as [->|Hc].
    + rewrite concat_cons_not_nil by apply split_scan_not_nil.
      by rewrite IH.
    + rewrite IH. by rewrite string_app_assoc.
Qed.

Lemma occurrences_app (c : ascii) (s1 s2 : string) :
  occurrences c (s1 +:+ s2) = (occurrences c s1 + occurrences c s2)%nat.
Proof.
  induction s1 as [|c1 s1 IH]; [done|].
  change (String c1 s1 +:+ s2) with (String c1 (s1 +:+ s2)).
  simpl. rewrite IH. lia.
Qed.

Lemma split_scan_tokens (input token : string) :
  occurrences "+" token = O ->
  Forall (fun t => occurrences "+" t = O) (split_scan (is_any_of "+") input token).
Proof.
  revert token. induction input as [|c rest IH]; intros token Htoken; cbn [split_scan].
  - by constructor.
  - rewrite is_any_of_plus. destruct (Ascii.eqb c "+") eqn:Hc.
    + constructor; [done|]. by apply IH.
    + apply IH. rewrite occurrences_app, Htoken. simpl. by rewrite Hc.
Qed.

Lemma split_scan_length (input token : string) :
  length (split_scan (is_any_of "+") input token) = S (occurrences "+" input).
Proof.
  revert token. induction input as [|c rest IH]; intros token;
    cbn [split_scan occurrences]; [done|].
  rewrite is_any_of_plus. destruct (Ascii.eqb c "+"); cbn [length]; by rewrite IH.
Qed.

(** [strtoull] gives 0 when the text after the blanks and the sign does
    not start with a hexadecimal digit. *)
Lemma skip_hex_prefix_non_digit (c : ascii) (s : string) :
  CLib.digit_in_base 16 c = None -> CLib.skip_hex_prefix (String c s) = String c s.
Proof.
  destruct c as [[] [] [] [] [] [] [] []]; intros H; try reflexivity;
    vm_compute in H; discriminate H.
Qed.

Lemma strtoull16_no_conversion (token : string) :
  match snd (CLib.read_sign (CLib.skip_spaces token)) with
  | EmptyString => True
  | String c _ => CLib.digit_in_base 16 c = None
  end ->
  CLib.strtoull16 token = 0.
Proof.
  unfold CLib.strtoull16.
  destruct (CLib.read_sign (CLib.skip_spaces token)) as [neg s1]. simpl.
  destruct s1 as [|c s1]; [done|].
  intros Hc. rewrite (skip_hex_prefix_non_digit c s1 Hc). simpl. by rewrite Hc.
Qed.

(** C8.  For a POST the body is cut at every + into tokens: joining the
    tokens with + gives the body back, no token contains a +, and there is
    one token more than there are + signs.  The response body is the
    concatenation, in the order of the tokens, of one line per token: the
    token, a tab, the name found for the token's address read as a
    hexadecimal number, or the word unknown when none is found, and a
    newline.  A token that does not start with a hexadecimal number is
    looked up as address 0.  The response is sent once, when the loop over
    the tokens has finished, and nothing else is done. *)
Theorem OnSymbol_post_lines (env : Env) (connection : HttpConnection) (st : State) :
  method (mutable_request connection) = kPost ->
  let tokens := split (body (mutable_request connection)) "+" in
  OnSymbol env connection st
  = (Normal tt,
     set_trace (trace st ++ [ConnSendResponse (id connection)
                               (concat_strings (map (symbol_line env) tokens))]) st)
  /\ String.concat "+" tokens = body (mutable_request connection)
  /\ Forall (fun t => occurrences "+" t = O) tokens
  /\ length tokens = S (occurrences "+" (body (mutable_request connection)))
  /\ (forall token name,
        Symbolize env (CLib.strtoull16 token) = Some name ->
        symbol_line env token = token +:+ TAB +:+ name +:+ NL)
  /\ (forall token,
        Symbolize env (CLib.strtoull16 token) = None ->
        symbol_line env token = token +:+ TAB +:+ "unknown" +:+ NL)
  /\ (forall token,
        match snd (CLib.read_sign (CLib.skip_spaces token)) with
        | EmptyString => True
        | String c _ => CLib.digit_in_base 16 c = None
        end ->
        CLib.strtoull16 token = 0).
Proof.
  intros Hpost tokens. repeat split.
  - unfold OnSymbol. rewrite Hpost.
    rewrite bool_decide_eq_false_2 by done.
    rewrite bool_decide_eq_true_2 by done.
    change (negb true) with false. cbv iota zeta.
    rewrite emit_run, symbol_loop_lines. reflexivity.
  - apply split_scan_join.
  - by apply split_scan_tokens.
  - apply split_scan_length.
  - intros token name Hname. unfold symbol_line. by rewrite Hname.
  - intros token Hnone. unfold symbol_line. by rewrite Hnone.
  - apply strtoull16_no_conversion.
Qed.

Lemma OnSymbol_post_lines_witness :
  OnSymbol loop_thread_env (post_symbol 7 "1a+2b") idle
  = (Normal tt,
     set_trace [ConnSendResponse 7 ("1a" +:+ TAB +:+ "main" +:+ NL
                                    +:+ "2b" +:+ TAB +:+ "unknown" +:+ NL)] idle)
  /\ symbol_line loop_thread_env "1a" = "1a" +:+ TAB +:+ "main" +:+ NL
  /\ symbol_line loop_thread_env "2b" = "2b" +:+ TAB +:+ "unknown" +:+ NL
  /\ CLib.strtoull16 "zz" = 0.
Proof.
  destruct (OnSymbol_post_lines loop_thread_env (post_symbol 7 "1a+2b") idle eq_refl)
    as (Hrun & _ & _ & _ & Hname & Hunknown & Hzero).
  split; [exact Hrun|]. split; [|split].
  - apply Hname. reflexivity.
  - apply Hunknown. reflexivity.
  - apply Hzero. reflexivity.
Defined.

(** * Further properties of the handlers *)

(** ** The seconds parameter and the CPU endpoint *)

Lemma GetProfileSeconds_cases (parameter : string) (st : State) :
  (exists v, 0 <= v <= 600 /\ GetProfileSeconds parameter st = (Normal v, st))
  \/ (exists msg,
        GetProfileSeconds parameter st
        = (Normal (-1), set_trace (trace st ++ [LogError msg]) st)).
Proof.
  destruct (decide (parameter = EmptyString)) as [->|Hne].
  { left. exists 30. split; [lia|reflexivity]. }
  destruct (CLib.stoi parameter) as [v| |] eqn:Hstoi.
  - destruct (decide (0 <= v <= 600)) as [Hv|Hv].
    + left. exists v. split; [done|]. by apply GetProfileSeconds_in_range.
    + right. apply GetProfileSeconds_rejected; [done|].
      intros v' Hv'. rewrite Hstoi in Hv'. injection Hv' as <-. lia.
  - right. apply GetProfileSeconds_rejected; [done|]. intros v' Hv'. congruence.
  - right. apply GetProfileSeconds_rejected; [done|]. intros v' Hv'. congruence.
Qed.

Lemma OnProfile_get_run (env : Env) (connection : HttpConnection) (v : Z) (st st1 : State) :
  method (mutable_request connection) = kGet ->
  GetProfileSeconds (get_parameter (mutable_request connection) "seconds") st
    = (Normal v, st1) ->
  OnProfile env connection st
  = (if v <? 0
     then emit (ConnOnError (id connection) k400BadRequest "Invalid Profile Seconds Parameter")
     else OnProfile_locked env v (id connection)) st1.
Proof.
  intros Hget Hsec. unfold OnProfile.
  rewrite bool_decide_eq_true_2 by done. change (negb true) with false. cbv iota zeta.
  by erewrite bind_normal by exact Hsec.
Qed.

Lemma OnProfile_runs (env : Env) (connection : HttpConnection) (st : State) :
  OnProfile_run env connection st (OnProfile env connection st).
Proof.
  destruct (decide (method (mutable_request connection) = kGet)) as [Hget|Hget].
  - destruct (GetProfileSeconds_cases
                (get_parameter (mutable_request connection) "seconds") st)
      as [(v & Hv & Hsec)|(msg & Hsec)].
    + rewrite (OnProfile_get_run env connection v st st Hget Hsec).
      destruct (Z.ltb_spec v 0); [lia|].
      destruct (decide (connections_ st = ∅)) as [Hidle|Hbusy].
      * rewrite OnProfile_locked_first_joiner_run by done. by eapply run_first_joiner.
      * rewrite OnProfile_locked_joiner_run by done. by eapply run_joiner.
    + rewrite (OnProfile_get_run env connection (-1) st _ Hget Hsec).
      change (-1 <? 0) with true. cbv iota.
      rewrite emit_run, set_trace_set_trace.
      replace (trace (set_trace (trace st ++ [LogError msg]) st) ++
               [ConnOnError (id connection) k400BadRequest "Invalid Profile Seconds Parameter"])
        with (trace st ++ [LogError msg;
                           ConnOnError (id connection) 400 "Invalid Profile Seconds Parameter"])
        by (destruct st; simpl; by rewrite <- app_assoc).
      by apply run_rejected.
  - rewrite OnProfile_wrong_method by done. by apply run_wrong_method.
Qed.

Lemma GetProfileSeconds_accepted_anywhere (parameter : string) (v : Z) (st st' : State) :
  GetProfileSeconds parameter st = (Normal v, st) -> 0 <= v ->
  GetProfileSeconds parameter st' = (Normal v, st').
Proof.
  unfold GetProfileSeconds. intros Hrun Hv.
  case_bool_decide; [by injection Hrun as <-|].
  destruct (CLib.stoi parameter) as [s| |].
  - destruct ((s <? 0) || (kMaxProfileSeconds <? s)).
    + unfold bind, ret in Hrun. rewrite emit_run in Hrun. injection Hrun as <- _. lia.
    + by injection Hrun as <-.
  - unfold bind, ret in Hrun. rewrite emit_run in Hrun. injection Hrun as <- _. lia.
  - unfold bind, ret in Hrun. rewrite emit_run in Hrun. injection Hrun as <- _. lia.
Qed.

Lemma accepted_request_run (env : Env) (connection : HttpConnection) (st : State) :
  accepted_request connection ->
  exists v, OnProfile env connection st = OnProfile_locked env v (id connection) st.
Proof.
  intros (Hget & v & Hv & Hsec). exists v.
  apply OnProfile_accepted; [done| |done].
  by apply (GetProfileSeconds_accepted_anywhere _ v idle st).
Qed.

(** X1.  [GetProfileSeconds] always returns: either a value of [0, 600]
    without logging anything, or -1 with exactly one error line.  It
    changes nothing but the log. *)
Theorem GetProfileSeconds_value_or_minus_one (parameter : string) (st : State) :
  exists v log,
    GetProfileSeconds parameter st = (Normal v, set_trace (trace st ++ log) st)
    /\ ((0 <= v <= 600 /\ log = []) \/ (v = -1 /\ exists msg, log = [LogError msg])).
Proof.
  destruct (GetProfileSeconds_cases parameter st) as [(v & Hv & Hrun)|(msg & Hrun)].
  - exists v, []. rewrite app_nil_r, set_trace_id. split; [done|]. by left.
  - exists (-1), [LogError msg]. split; [done|]. right. split; [done|]. by exists msg.
Qed.

(** X2.  A run of [OnProfile] ends in a fault exactly when the request is
    a GET with an accepted seconds parameter and no connection is waiting;
    every other run returns normally. *)
Theorem OnProfile_faults_iff_first_joiner
    (env : Env) (connection : HttpConnection) (st : State) :
  (exists f, fst (OnProfile env connection st) = Crashed f)
  <-> (method (mutable_request connection) = kGet
       /\ connections_ st = ∅
       /\ exists v, 0 <= v
            /\ GetProfileSeconds (get_parameter (mutable_request connection) "seconds") st
               = (Normal v, st)).
Proof.
  split.
  - intros [f Hf]. destruct (OnProfile_runs env connection st) as [?|msg ?|v ? ? ? ?|v ? ? ? ?];
      simpl in Hf; try discriminate Hf.
    split; [done|]. split; [done|]. exists v. split; [lia|done].
  - intros (Hget & Hidle & v & Hv & Hsec).
    rewrite (OnProfile_accepted env connection v st Hget Hsec Hv).
    rewrite OnProfile_locked_first_joiner_run by done. by eexists.
Qed.

(** X3.  Whatever the request, [OnProfile] sends no data and closes no
    connection: besides log lines and the start of the profiler, the only
    call it can make is the error response with status 400 on the
    requesting connection.  It leaves the heap session alone and removes
    no waiter of the CPU session. *)
Theorem OnProfile_no_synchronous_response
    (env : Env) (connection : HttpConnection) (st : State) :
  let st' := snd (OnProfile env connection st) in
  (exists calls,
     trace st' = trace st ++ calls /\ Forall (OnProfile_call (id connection)) calls)
  /\ heap_connections_ st' = heap_connections_ st
  /\ heap_connections st' = heap_connections st
  /\ connections_ st ⊆ connections_ st'.
Proof.
  intros st'. unfold st'.
  destruct (OnProfile_runs env connection st) as [?|msg ?|v ? ? ? ?|v ? ? ? ?].
  - split; [|by destruct st]. eexists. split; [by destruct st|].
    repeat constructor.
  - split; [|by destruct st]. eexists. split; [by destruct st|].
    repeat constructor.
  - split; [|by destruct st]. exists (first_joiner_calls env). split; [by destruct st|].
    unfold first_joiner_calls. repeat constructor.
    by destruct (ProfilerStart_result env kProfileFile).
  - split.
    + exists []. split; [destruct st; simpl; by rewrite app_nil_r|constructor].
    + destruct st; simpl. repeat split; try done. set_solver.
Qed.

(** X4.  While a CPU session is running, an accepted request only adds its
    connection to the waiters: it makes no call, its seconds value and the
    profiler's state play no role, and a second request on the same
    connection changes nothing further. *)
Theorem OnProfile_joiner_only_registers
    (env env' : Env) (connection connection' : HttpConnection) (st : State) :
  connections_ st <> ∅ ->
  accepted_request connection ->
  accepted_request connection' ->
  id connection' = id connection ->
  OnProfile env connection st
  = (Normal tt, set_connections_ ({[ id connection ]} ∪ connections_ st) st)
  /\ OnProfile env' connection' st = OnProfile env connection st
  /\ OnProfile env' connection' (snd (OnProfile env connection st))
     = OnProfile env connection st.
Proof.
  intros Hbusy Hacc Hacc' Hid.
  assert (Hrun : forall e c s, accepted_request c -> connections_ s <> ∅ ->
            OnProfile e c s = (Normal tt, set_connections_ ({[ id c ]} ∪ connections_ s) s)).
  { intros e c s Hc Hs. destruct (accepted_request_run e c s Hc) as [v ->].
    by apply OnProfile_locked_joiner_run. }
  rewrite !Hrun by done. split; [done|]. split; [by rewrite Hid|].
  simpl. rewrite Hrun; [|done|destruct st; simpl; set_solver].
  rewrite Hid. f_equal. destruct st; simpl. unfold set_connections_; simpl.
  f_equal. set_solver.
Qed.

Lemma OnProfile_joiner_only_registers_witness :
  OnProfile loop_thread_env (get_profile 7 "5") cpu_session_running
  = (Normal tt, set_connections_ ({[ 7 ]} ∪ {[ 3 ]}) cpu_session_running)
  /\ OnProfile (with_ProfilerStart_result false loop_thread_env) (get_profile 7 "600abc")
       cpu_session_running
     = OnProfile loop_thread_env (get_profile 7 "5") cpu_session_running.
Proof.
  destruct (OnProfile_joiner_only_registers loop_thread_env
              (with_ProfilerStart_result false loop_thread_env)
              (get_profile 7 "5") (get_profile 7 "600abc") cpu_session_running)
    as (Hrun & Hsame & _).
  - simpl. apply (non_empty_inhabited_L 3). set_solver.
  - split; [reflexivity|]. exists 5. split; [lia|reflexivity].
  - split; [reflexivity|]. exists 600. split; [lia|reflexivity].
  - reflexivity.
  - split; [exact Hrun|exact Hsame].
Defined.

(** ** Requests and completions in sequence *)

Lemma set_connections_set_connections_ (v1 v2 : gset Id) (s : State) :
  set_connections_ v2 (set_connections_ v1 s) = set_connections_ v2 s.
Proof. by destruct s. Qed.

Lemma run_all_app (l1 l2 : list (M unit)) (st : State) :
  run_all (l1 ++ l2) st = bind (run_all l1) (fun _ => run_all l2) st.
Proof.
  revert st. induction l1 as [|h l1 IH]; intros st; [done|].
  cbn [run_all app]. unfold bind.
  destruct (h st) as [[[]|f] s']; [|done].
  rewrite IH. reflexivity.
Qed.

Lemma run_joiners (env : Env) (conns : list HttpConnection) (st : State) :
  connections_ st <> ∅ ->
  Forall accepted_request conns ->
  run_all (map (OnProfile env) conns) st
  = (Normal tt, set_connections_ (list_to_set (map id conns) ∪ connections_ st) st).
Proof.
  intros Hbusy Hconns. revert st Hbusy.
  induction Hconns as [|c conns Hc Hconns IH]; intros st Hbusy.
  - simpl. unfold ret. f_equal. destruct st; simpl. unfold set_connections_; simpl.
    f_equal. set_solver.
  - simpl. destruct (accepted_request_run env c st Hc) as [v Hrun].
    erewrite bind_normal; [|rewrite Hrun; by apply OnProfile_locked_joiner_run].
    rewrite IH by (destruct st; simpl; set_solver).
    rewrite set_connections_set_connections_. f_equal.
    destruct st; simpl. unfold set_connections_; simpl. f_equal. set_solver.
Qed.

(** X5.  Requests that join a running CPU session and the completion task
    compose: when the task runs after any number of accepted requests, it
    serves the connections that were waiting before together with the
    ones that joined, each with one send of the same output and one
    shutdown, a connection that asked several times still only once, and
    it leaves no waiter behind. *)
Theorem joiners_are_served_by_the_completion
    (env : Env) (conns : list HttpConnection) (st : State) :
  connections_ st <> ∅ ->
  Forall accepted_request conns ->
  let waiters := list_to_set (map id conns) ∪ connections_ st in
  let output := ReadFileToString env kProfileFile in
  let deliveries := flat_map (delivery output) (in_order waiters) in
  run_all (map (OnProfile env) conns ++ [OnProfileComplete env]) st
  = (Normal tt,
     set_trace (trace st ++ [ProfilerFlushCall; ProfilerStopCall] ++ deliveries)
               (set_connections_ ∅ st))
  /\ (forall c, count (is_send c output) deliveries
               = once_if (bool_decide (c ∈ connections_ st \/ c ∈ map id conns)))
  /\ (forall c, count (is_send_to c) deliveries
               = once_if (bool_decide (c ∈ connections_ st \/ c ∈ map id conns)))
  /\ (forall c, count (is_shutdown_of c) deliveries
               = once_if (bool_decide (c ∈ connections_ st \/ c ∈ map id conns))).
Proof.
  intros Hbusy Hconns waiters output deliveries.
  assert (Hmem : forall c, bool_decide (c ∈ waiters)
                           = bool_decide (c ∈ connections_ st \/ c ∈ map id conns)).
  { intros c. apply bool_decide_ext. unfold waiters.
    rewrite elem_of_union, elem_of_list_to_set. tauto. }
  split; [|split; [|split]].
  - rewrite run_all_app. erewrite bind_normal by (by apply run_joiners).
    simpl. unfold bind at 1. rewrite OnProfileComplete_run. unfold ret.
    rewrite set_connections_set_connections_. by destruct st.
  - intros c. rewrite <- Hmem.
    apply (count_in_order (fun c => is_send c output));
      [apply is_send_other|apply is_send_self].
  - intros c. rewrite <- Hmem.
    apply (count_in_order is_send_to); [apply is_send_to_other|apply is_send_to_self].
  - intros c. rewrite <- Hmem.
    apply (count_in_order is_shutdown_of);
      [apply is_shutdown_of_other|apply is_shutdown_of_self].
Qed.

Lemma joiners_are_served_by_the_completion_witness :
  run_all (map (OnProfile loop_thread_env) [get_profile 7 "5"; get_profile 7 "9"; get_profile 2 ""]
           ++ [OnProfileComplete loop_thread_env]) cpu_session_running
  = (Normal tt,
     set_trace [ProfilerFlushCall; ProfilerStopCall;
                ServerSend 2 "profile-bytes"; ServerShutdown 2;
                ServerSend 3 "profile-bytes"; ServerShutdown 3;
                ServerSend 7 "profile-bytes"; ServerShutdown 7] idle).
Proof.
  destruct (joiners_are_served_by_the_completion loop_thread_env
              [get_profile 7 "5"; get_profile 7 "9"; get_profile 2 ""] cpu_session_running)
    as (Hrun & _).
  - simpl. apply (non_empty_inhabited_L 3). set_solver.
  - repeat constructor; try (by exists 5; split; [lia|reflexivity]);
      try (by exists 9; split; [lia|reflexivity]);
      try (by exists 30; split; [lia|reflexivity]).
  - rewrite Hrun. vm_compute. reflexivity.
Defined.

(** X6.  A completion task that runs right after another one serves
    nobody: it flushes and stops the profiler and sends nothing, so no
    waiter receives the output twice. *)
Theorem OnProfileComplete_again_serves_nobody (env env' : Env) (st : State) :
  let st1 := snd (OnProfileComplete env st) in
  OnProfileComplete env' st1
  = (Normal tt, set_trace (trace st1 ++ [ProfilerFlushCall; ProfilerStopCall]) st1).
Proof.
  intros st1. rewrite OnProfileComplete_run.
  assert (Hidle : connections_ st1 = ∅).
  { unfold st1. rewrite OnProfileComplete_run. by destruct st. }
  rewrite Hidle, in_order_empty. simpl flat_map. rewrite app_nil_r.
  f_equal. destruct st1; simpl in *. by subst.
Qed.

(** ** The heap endpoint in sequence *)

Lemma OnHeap_first_run (env : Env) (loop : EventLoop) (connection : HttpConnection) (st : State) :
  getenv env "TCMALLOC_SAMPLE_PARAMETER" = None ->
  CurrentLoopInThisThread env = Some loop ->
  heap_connections_ st = ∅ ->
  OnHeap env connection st
  = (Normal tt,
     set_heap_connections_ {[ id connection ]}
       (set_timers (timers st ++ [{| timer_loop := loop; timer_delay_ms := 30000;
                                     timer_task := TaskOnHeapProfileComplete |}])
          (set_trace (trace st ++ [HeapProfilerStartCall "/tmp/heap-profile.dat"]) st))).
Proof.
  intros Henv Hloop Hidle. unfold OnHeap. rewrite Henv. unfold bind, get_state.
  rewrite bool_decide_eq_true_2 by done. rewrite emit_run, Hloop. simpl.
  unfold modify. f_equal. destruct st; simpl in *. subst.
  unfold set_heap_connections_; simpl. f_equal. set_solver.
Qed.

Lemma OnHeap_joiner_run (env : Env) (connection : HttpConnection) (st : State) :
  getenv env "TCMALLOC_SAMPLE_PARAMETER" = None ->
  heap_connections_ st <> ∅ ->
  OnHeap env connection st
  = (Normal tt, set_heap_connections_ ({[ id connection ]} ∪ heap_connections_ st) st).
Proof.
  intros Henv Hbusy. unfold OnHeap. rewrite Henv. unfold bind, get_state.
  by rewrite bool_decide_eq_false_2.
Qed.

Lemma run_heap_joiners (env : Env) (conns : list HttpConnection) (st : State) :
  getenv env "TCMALLOC_SAMPLE_PARAMETER" = None ->
  heap_connections_ st <> ∅ ->
  run_all (map (OnHeap env) conns) st
  = (Normal tt,
     set_heap_connections_ (list_to_set (map id conns) ∪ heap_connections_ st) st).
Proof.
  intros Henv. revert st. induction conns as [|c conns IH]; intros st Hbusy.
  - simpl. unfold ret. f_equal. destruct st; simpl. unfold set_heap_connections_; simpl.
    f_equal. set_solver.
  - simpl. erewrite bind_normal by (by apply OnHeap_joiner_run).
    rewrite IH by (destruct st; simpl; set_solver).
    destruct st; simpl. unfold set_heap_connections_; simpl. do 2 f_equal. set_solver.
Qed.

(** X7.  Without continuous sampling and on a thread with an event loop,
    any number of heap requests arriving while no heap session runs share
    one session: the heap profiler is started once, one completion task
    is registered 30000 ms ahead, every requesting connection is a waiter,
    and no request is answered yet. *)
Theorem OnHeap_requests_share_one_session
    (env : Env) (loop : EventLoop) (c : HttpConnection) (conns : list HttpConnection)
    (st : State) :
  getenv env "TCMALLOC_SAMPLE_PARAMETER" = None ->
  CurrentLoopInThisThread env = Some loop ->
  heap_connections_ st = ∅ ->
  run_all (map (OnHeap env) (c :: conns)) st
  = (Normal tt,
     set_heap_connections_ (list_to_set (map id (c :: conns)))
       (set_timers (timers st ++ [{| timer_loop := loop; timer_delay_ms := 30000;
                                     timer_task := TaskOnHeapProfileComplete |}])
          (set_trace (trace st ++ [HeapProfilerStartCall "/tmp/heap-profile.dat"]) st))).
Proof.
  intros Henv Hloop Hidle. simpl.
  erewrite bind_normal by (by apply OnHeap_first_run).
  rewrite run_heap_joiners; [|done|destruct st; simpl; set_solver].
  destruct st; simpl. unfold set_heap_connections_; simpl. do 2 f_equal. set_solver.
Qed.

Lemma OnHeap_requests_share_one_session_witness :
  run_all (map (OnHeap loop_thread_env) [get_profile 7 ""; get_profile 2 ""; get_profile 7 ""])
          idle
  = (Normal tt,
     set_heap_connections_ (list_to_set [7; 2; 7])
       (set_timers [{| timer_loop := 1%positive; timer_delay_ms := 30000;
                       timer_task := TaskOnHeapProfileComplete |}]
          (set_trace [HeapProfilerStartCall "/tmp/heap-profile.dat"] idle))).
Proof.
  apply (OnHeap_requests_share_one_session loop_thread_env 1%positive
           (get_profile 7 "") [get_profile 2 ""; get_profile 7 ""] idle); reflexivity.
Defined.

(** X8.  The first heap request on a thread that has no current event
    loop starts the heap profiler and then calls [RunAfter] through the
    null pointer: the run ends in that fault, no timer is registered and
    the connection is not made a waiter. *)
Theorem OnHeap_without_loop_faults (env : Env) (connection : HttpConnection) (st : State) :
  getenv env "TCMALLOC_SAMPLE_PARAMETER" = None ->
  CurrentLoopInThisThread env = None ->
  heap_connections_ st = ∅ ->
  OnHeap env connection st
  = (Crashed NullDereference,
     set_trace (trace st ++ [HeapProfilerStartCall "/tmp/heap-profile.dat"]) st).
Proof.
  intros Henv Hloop Hidle. unfold OnHeap. rewrite Henv. unfold bind, get_state.
  rewrite bool_decide_eq_true_2 by done. by rewrite emit_run, Hloop.
Qed.

Lemma OnHeap_without_loop_faults_witness :
  OnHeap no_loop_env (get_profile 7 "") idle
  = (Crashed NullDereference,
     set_trace [HeapProfilerStartCall "/tmp/heap-profile.dat"] idle).
Proof.
  apply (OnHeap_without_loop_faults no_loop_env (get_profile 7 "") idle); reflexivity.
Defined.

(** ** The command line *)




Lemma std_replace_app (s1 s2 : string) (a b : ascii) :
  std_replace (s1 +:+ s2) a b = std_replace s1 a b +:+ std_replace s2 a b.
Proof.
  induction s1 as [|c s1 IH]; [done|].
  change (String c s1 +:+ s2) with (String c (s1 +:+ s2)). simpl. by rewrite IH.
Qed.

Lemma std_replace_absent (s : string) (a b : ascii) :
  occurrences a s = O -> std_replace s a b = s.
Proof.
  induction s as [|c s IH]; simpl; [done|].
  destruct (Ascii.eqb c a); [done|]. intros H. by rewrite IH.
Qed.

Lemma OnCmdline_run (env : Env) (connection : HttpConnection) (st : State) :
  OnCmdline env connection st
  = (Normal tt,
     set_trace (trace st ++
                [ConnSend (id connection)
                   (std_replace (ReadFileToString env "/proc/self/cmdline")
                                "000"%char "010"%char);
                 ConnShutdown (id connection)]) st).
Proof.
  unfold OnCmdline, bind. rewrite !emit_run, set_trace_set_trace.
  destruct st; simpl. unfold set_trace; simpl. by rewrite <- app_assoc.
Qed.



Lemma std_replace_cmdline (args : list string) :
  Forall (fun a => occurrences "000"%char a = O) args ->
  std_replace (cmdline_of args) "000"%char "010"%char
  = concat_strings (map (fun a => a +:+ NL) args).
Proof.
  intros Hargs. unfold cmdline_of. induction Hargs as [|a args Ha Hargs IH]; [done|].
  cbn [map concat_strings fold_right].
  rewrite !std_replace_app. fold (concat_strings (map (fun a => a +:+ String "000"%char EmptyString) args)).
  rewrite IH, (std_replace_absent a) by done.
  reflexivity.
Qed.

(** X10.  When the command line record holds the arguments each followed
    by a NUL, and no argument contains a NUL itself, the body of
    [OnCmdline] is the arguments each followed by a newline, in the same
    order. *)
Theorem OnCmdline_one_line_per_argument
    (env : Env) (connection : HttpConnection) (args : list string) (st : State) :
  file_contents env "/proc/self/cmdline" = Some (cmdline_of args) ->
  Forall (fun a => occurrences "000"%char a = O) args ->
  OnCmdline env connection st
  = (Normal tt,
     set_trace (trace st ++
                [ConnSend (id connection) (concat_strings (map (fun a => a +:+ NL) args));
                 ConnShutdown (id connection)]) st).
Proof.
  intros Hfile Hargs. rewrite OnCmdline_run.
  unfold ReadFileToString. rewrite Hfile. by rewrite std_replace_cmdline.
Qed.

Lemma OnCmdline_one_line_per_argument_witness :
  OnCmdline server_env (get_profile 7 "") idle
  = (Normal tt,
     set_trace [ConnSend 7 ("server" +:+ NL +:+ "--port" +:+ NL +:+ "80" +:+ NL);
                ConnShutdown 7] idle).
Proof.
  apply (OnCmdline_one_line_per_argument server_env (get_profile 7 "")
           ["server"; "--port"; "80"]%string idle).
  - reflexivity.
  - repeat constructor.
Defined.

(** ** Responders that keep no session *)

(** X11.  [OnGrowth], [OnCmdline], [OnHeapHistogram] and [OnSymbol], the
    last for every request method, always return normally, make at least
    one call and only calls on the connection they answer, and leave the
    waiter sets, the timers and the profilers as they are. *)
Theorem responders_only_answer
    (env : Env) (ext : MallocExtension) (connection : HttpConnection) :
  only_answers (id connection) (OnGrowth ext connection)
  /\ only_answers (id connection) (OnCmdline env connection)
  /\ only_answers (id connection) (OnHeapHistogram env connection)
  /\ only_answers (id connection) (OnSymbol env connection).
Proof.
  assert (Htwo : forall (st : State) (e1 e2 : Event),
            set_trace (trace (set_trace (trace st ++ [e1]) st) ++ [e2])
                      (set_trace (trace st ++ [e1]) st)
            = set_trace (trace st ++ [e1; e2]) st).
  { intros st e1 e2. destruct st; simpl. unfold set_trace; simpl. by rewrite <- app_assoc. }
  repeat split; intros st.
  - eexists. split; [|split].
    + unfold OnGrowth, bind. rewrite !emit_run. by rewrite Htwo.
    + done.
    + by repeat constructor.
  - eexists. split; [apply OnCmdline_run|]. split; [done|by repeat constructor].
  - eexists. split; [|split].
    + unfold OnHeapHistogram, bind. rewrite !emit_run. by rewrite Htwo.
    + done.
    + by repeat constructor.
  - unfold OnSymbol. cbv zeta.
    destruct (decide (method (mutable_request connection) = kGet)) as [Hget|Hget].
    + rewrite (bool_decide_eq_true_2 _ Hget).
      eexists. split; [|split].
      * unfold bind. rewrite !emit_run. by rewrite Htwo.
      * done.
      * by repeat constructor.
    + rewrite (bool_decide_eq_false_2 _ Hget).
      destruct (decide (method (mutable_request connection) = kPost)) as [Hpost|Hpost].
      * rewrite (bool_decide_eq_true_2 _ Hpost). change (negb true) with false. cbv iota.
        eexists. split; [by rewrite emit_run|]. split; [done|by repeat constructor].
      * rewrite (bool_decide_eq_false_2 _ Hpost). change (negb false) with true. cbv iota.
        eexists. split; [by rewrite emit_run|]. split; [done|by repeat constructor].
Qed.

(** ** Addresses of the symbol endpoint *)

Lemma digit_in_base_range (base : Z) (c : ascii) (d : Z) :
  CLib.digit_in_base base c = Some d -> 0 <= d < base.
Proof.
  unfold CLib.digit_in_base, CLib.digit_value.
  repeat match goal with
         | |- context [if ?b then _ else _] => destruct b eqn:?
         end; intros H; try discriminate H; injection H as <-;
    repeat match goal with
           | H : (_ && _) = true |- _ => apply andb_true_iff in H as [? ?]
           | H : (_ <=? _) = true |- _ => apply Z.leb_le in H
           | H : (_ <? _) = true |- _ => apply Z.ltb_lt in H
           end; lia.
Qed.

Lemma read_digits_nonneg (base : Z) (s : string) (acc : Z) (any : bool) :
  0 < base -> 0 <= acc -> 0 <= fst (CLib.read_digits base s acc any).
Proof.
  intros Hbase. revert acc any. induction s as [|c s IH]; intros acc any Hacc; simpl; [done|].
  destruct (CLib.digit_in_base base c) as [d|] eqn:Hd; [|done].
  apply IH. apply digit_in_base_range in Hd. nia.
Qed.

(** X12.  Whatever the token, the address that [OnSymbol] passes to the
    symbolizer is a 64-bit unsigned value: [strtoull] saturates at
    [ULLONG_MAX] and wraps a negated value, so the cast to [uintptr_t]
    loses nothing. *)
Theorem strtoull16_is_64_bit (token : string) :
  0 <= CLib.strtoull16 token <= CLib.ULLONG_MAX.
Proof.
  unfold CLib.strtoull16, CLib.ULLONG_MAX.
  destruct (CLib.read_sign (CLib.skip_spaces token)) as [neg s1].
  pose proof (read_digits_nonneg 16 (CLib.skip_hex_prefix s1) 0 false) as Hpos.
  destruct (CLib.read_digits 16 (CLib.skip_hex_prefix s1) 0 false) as [v any].
  simpl in Hpos. specialize (Hpos ltac:(lia) ltac:(lia)).
  destruct any; simpl; [|lia].
  destruct (Z.ltb_spec 18446744073709551615 v); [lia|].
  destruct neg; [|lia].
  pose proof (Z.mod_pos_bound (- v) (2 ^ 64) ltac:(lia)). lia.
Qed.

Lemma hex_digit_plain (c : ascii) (s : string) :
  is_hex_digit c = true ->
  CLib.isspace c = false
  /\ CLib.read_sign (String c s) = (false, String c s)
  /\ Ascii.eqb c "x" || Ascii.eqb c "X" = false.
Proof.
  destruct c as [[] [] [] [] [] [] [] []]; intros H; vm_compute in H;
    try discriminate H; repeat split; reflexivity.
Qed.

Lemma skip_hex_prefix_digits (h : string) :
  all_hex_digits h = true -> CLib.skip_hex_prefix h = h.
Proof.
  destruct h as [|d [|x h]]; [done|by destruct d as [[] [] [] [] [] [] [] []]|].
  cbn [all_hex_digits]. intros [Hd [Hx _]%andb_true_iff]%andb_true_iff.
  destruct (hex_digit_plain x h Hx) as (_ & _ & Hnot).
  unfold CLib.skip_hex_prefix.
  destruct h as [|d2 h]; [by destruct d as [[] [] [] [] [] [] [] []]|].
  rewrite Hnot. by destruct d as [[] [] [] [] [] [] [] []].
Qed.

(** X13.  A token of hexadecimal digits is read as the same address with
    and without the prefix 0x or 0X, so the symbolizer is asked the same
    question for both spellings. *)
Theorem strtoull16_ignores_0x (h : string) :
  h <> EmptyString ->
  all_hex_digits h = true ->
  CLib.strtoull16 ("0x" +:+ h) = CLib.strtoull16 h
  /\ CLib.strtoull16 ("0X" +:+ h) = CLib.strtoull16 h.
Proof.
  intros Hne Hall. pose proof (skip_hex_prefix_digits h Hall) as Hskip.
  destruct h as [|d h]; [done|].
  pose proof Hall as Hall'. cbn [all_hex_digits] in Hall'.
  apply andb_true_iff in Hall' as [Hd _].
  destruct (hex_digit_plain d h Hd) as (Hspace & Hsign & _).
  assert (Hrhs : CLib.strtoull16 (String d h)
                 = let '(v, any) := CLib.read_digits 16 (String d h) 0 false in
                   if negb any then 0
                   else if CLib.ULLONG_MAX <? v then CLib.ULLONG_MAX else v).
  { unfold CLib.strtoull16. cbn [CLib.skip_spaces]. rewrite Hspace, Hsign, Hskip.
    reflexivity. }
  rewrite Hrhs. unfold is_hex_digit in Hd.
  split.
  - unfold CLib.strtoull16.
    change ("0x" +:+ String d h) with (String "0" (String "x" (String d h))).
    cbn [CLib.skip_spaces]. change (CLib.isspace "0") with false. cbv iota.
    change (CLib.read_sign (String "0" (String "x" (String d h))))
      with (false, String "0" (String "x" (String d h))).
    cbv iota beta. unfold CLib.skip_hex_prefix.
    change (Ascii.eqb "x" "x" || Ascii.eqb "x" "X") with true.
    destruct (CLib.digit_in_base 16 d); [reflexivity|discriminate Hd].
  - unfold CLib.strtoull16.
    change ("0X" +:+ String d h) with (String "0" (String "X" (String d h))).
    cbn [CLib.skip_spaces]. change (CLib.isspace "0") with false. cbv iota.
    change (CLib.read_sign (String "0" (String "X" (String d h))))
      with (false, String "0" (String "X" (String d h))).
    cbv iota beta. unfold CLib.skip_hex_prefix.
    change (Ascii.eqb "X" "x" || Ascii.eqb "X" "X") with true.
    destruct (CLib.digit_in_base 16 d); [reflexivity|discriminate Hd].
Qed.

Lemma strtoull16_ignores_0x_witness :
  CLib.strtoull16 "0x7f3a" = CLib.strtoull16 "7f3a"
  /\ CLib.strtoull16 "0X7f3a" = 32570.
Proof.
  destruct (strtoull16_ignores_0x "7f3a") as [Hx HX]; [discriminate|reflexivity|].
  split; [exact Hx|]. etransitivity; [exact HX|reflexivity].
Defined.

(** ** Symbol requests by their tokens *)

Lemma split_scan_token (t rest acc : string) :
  occurrences "+" t = O ->
  split_scan (is_any_of "+") (t +:+ rest) acc = split_scan (is_any_of "+") rest (acc +:+ t).
Proof.
  revert acc. induction t as [|c t IH]; intros acc Ht.
  - by rewrite string_app_nil_r.
  - change (String c t +:+ rest) with (String c (t +:+ rest)).
    cbn [split_scan]. rewrite is_any_of_plus.
    simpl in Ht. destruct (Ascii.eqb c "+"); [done|].
    rewrite IH by done. rewrite string_app_assoc. reflexivity.
Qed.

Lemma split_scan_joined (tokens : list string) (t acc : string) :
  Forall (fun t => occurrences "+" t = O) (t :: tokens) ->
  split_scan (is_any_of "+") (String.concat "+" (t :: tokens)) acc
  = (acc +:+ t) :: tokens.
Proof.
  revert t acc. induction tokens as [|t2 tokens IH]; intros t acc Hall.
  - apply Forall_inv in Hall. cbn [String.concat].
    rewrite <- (string_app_nil_r t) at 1. rewrite split_scan_token by done. reflexivity.
  - pose proof (Forall_inv Hall) as Ht. apply Forall_inv_tail in Hall.
    rewrite concat_cons_not_nil by done.
    rewrite split_scan_token by done.
    change ("+" +:+ String.concat "+" (t2 :: tokens))
      with (String "+" (String.concat "+" (t2 :: tokens))).
    cbn [split_scan]. rewrite is_any_of_plus. change (Ascii.eqb "+" "+") with true.
    cbv iota. by rewrite IH.
Qed.

(** X14.  A POST whose body is the tokens t1, ..., tn joined by +, none of
    them containing a +, is answered with exactly the lines of t1, ...,
    tn in this order; empty tokens, and so the empty body, included.  The
    split and the join are inverse to each other. *)
Theorem OnSymbol_answers_each_token
    (env : Env) (connection : HttpConnection) (t : string) (tokens : list string)
    (st : State) :
  method (mutable_request connection) = kPost ->
  body (mutable_request connection) = String.concat "+" (t :: tokens) ->
  Forall (fun t => occurrences "+" t = O) (t :: tokens) ->
  split (body (mutable_request connection)) "+" = t :: tokens
  /\ OnSymbol env connection st
     = (Normal tt,
        set_trace (trace st ++
                   [ConnSendResponse (id connection)
                      (concat_strings (map (symbol_line env) (t :: tokens)))]) st).
Proof.
  intros Hpost Hbody Htokens.
  assert (Hsplit : split (body (mutable_request connection)) "+" = t :: tokens).
  { unfold split. rewrite Hbody. by rewrite split_scan_joined. }
  split; [done|].
  unfold OnSymbol. rewrite Hpost.
  rewrite bool_decide_eq_false_2 by done.
  rewrite bool_decide_eq_true_2 by done.
  change (negb true) with false. cbv iota zeta.
  rewrite emit_run, symbol_loop_lines, Hsplit. reflexivity.
Qed.

Lemma OnSymbol_answers_each_token_witness :
  OnSymbol loop_thread_env (post_symbol 7 "0x1a++zz") idle
  = (Normal tt,
     set_trace [ConnSendResponse 7 ("0x1a" +:+ TAB +:+ "main" +:+ NL
                                    +:+ TAB +:+ "unknown" +:+ NL
                                    +:+ "zz" +:+ TAB +:+ "unknown" +:+ NL)] idle).
Proof.
  apply (OnSymbol_answers_each_token loop_thread_env (post_symbol 7 "0x1a++zz")
           "0x1a" [""%string; "zz"%string] idle).
  - reflexivity.
  - reflexivity.
  - repeat constructor.
Defined.

(** ** Numerals in the seconds parameter *)

Lemma all_decimal_digits_app (d1 d2 : string) :
  all_decimal_digits (d1 +:+ d2) = all_decimal_digits d1 && all_decimal_digits d2.
Proof.
  induction d1 as [|c d1 IH]; [done|].
  change (String c d1 +:+ d2) with (String c (d1 +:+ d2)). simpl.
  by rewrite IH, andb_assoc.
Qed.

Lemma decimal_value_app (d1 d2 : string) :
  decimal_value (d1 +:+ d2)
  = decimal_value d1 * 10 ^ Z.of_nat (String.length d2) + decimal_value d2.
Proof.
  induction d1 as [|c d1 IH]; [change (EmptyString +:+ d2) with d2; simpl; lia|].
  change (String c d1 +:+ d2) with (String c (d1 +:+ d2)). simpl.
  rewrite IH, string_length_app, Nat2Z.inj_add, Z.pow_add_r by lia. ring.
Qed.

Lemma pretty_N_char_digit (y : N) :
  (y < 10)%N ->
  is_decimal_digit (pretty_N_char y) = true
  /\ Z.of_N (N_of_ascii (pretty_N_char y)) - 48 = Z.of_N y.
Proof.
  intros Hy.
  assert (y = 0 \/ y = 1 \/ y = 2 \/ y = 3 \/ y = 4 \/ y = 5 \/ y = 6 \/ y = 7
          \/ y = 8 \/ y = 9)%N as Hcases by lia.
  repeat (destruct Hcases as [->|Hcases]; [by vm_compute|]). subst. by vm_compute.
Qed.

Lemma pretty_N_go_digits (x : N) (s : string) :
  exists d,
    pretty_N_go x s = d +:+ s
    /\ all_decimal_digits d = true
    /\ decimal_value d = Z.of_N x
    /\ ((0 < x)%N -> d <> EmptyString).
Proof.
  revert s. induction (N.lt_wf_0 x) as [x _ IH]; intros s.
  destruct (decide (x = 0%N)) as [->|Hx].
  { exists EmptyString. rewrite pretty_N_go_0. repeat split. lia. }
  rewrite pretty_N_go_step by lia.
  destruct (IH (x `div` 10)%N ltac:(apply N.div_lt; lia)
               (String (pretty_N_char (x `mod` 10)) s)) as (d & Hd & Hall & Hval & _).
  destruct (pretty_N_char_digit (x `mod` 10)%N ltac:(apply N.mod_lt; lia)) as [Hc Hcv].
  exists (d +:+ String (pretty_N_char (x `mod` 10)) EmptyString). repeat split.
  - by rewrite Hd, string_app_assoc.
  - rewrite all_decimal_digits_app, Hall. simpl. by rewrite Hc.
  - rewrite decimal_value_app, Hval. simpl. rewrite Hcv.
    rewrite (N.div_mod x 10) at 3 by lia. lia.
  - intros _. by destruct d.
Qed.

Lemma pretty_N_digits (x : N) :
  exists d,
    pretty x = d /\ d <> EmptyString /\ all_decimal_digits d = true
    /\ decimal_value d = Z.of_N x.
Proof.
  unfold pretty, pretty_N. case_decide as Hx.
  - subst. by exists "0"%string.
  - destruct (pretty_N_go_digits x EmptyString) as (d & Hd & Hall & Hval & Hne).
    exists d. rewrite Hd, string_app_nil_r. repeat split; [|done|done]. apply Hne. lia.
Qed.

Lemma skip_spaces_blanks (blanks s : string) :
  all_blanks blanks = true -> CLib.skip_spaces (blanks +:+ s) = CLib.skip_spaces s.
Proof.
  induction blanks as [|c blanks IH]; [done|].
  simpl. intros [Hc Hb]%andb_true_iff.
  change (String c blanks +:+ s) with (String c (blanks +:+ s)).
  cbn [CLib.skip_spaces]. rewrite Hc. by apply IH.
Qed.

Lemma read_number (d rest : string) (acc : Z) :
  d <> EmptyString ->
  all_decimal_digits d = true ->
  ends_number rest = true ->
  CLib.read_digits 10 (d +:+ rest) 0 false = (decimal_value d, true).
Proof.
  intros Hne Hall Hrest. rewrite (read_digits_decimal _ _ _ _ Hall).
  rewrite read_digits_stop.
  - rewrite bool_decide_eq_false_2 by done. by rewrite Z.mul_0_l.
  - destruct rest as [|r rest]; [done|]. simpl in Hrest.
    apply digit_in_base_10_non_digit. by destruct (is_decimal_digit r).
Qed.

(** The shape that [strtol] reads completely: blanks, an optional sign,
    digits, and then nothing or something that is not a digit. *)
Lemma strtol10_value_shape (blanks sign d rest : string) :
  all_blanks blanks = true ->
  sign = EmptyString \/ sign = "+"%string \/ sign = "-"%string ->
  d <> EmptyString ->
  all_decimal_digits d = true ->
  ends_number rest = true ->
  CLib.strtol10_value (blanks +:+ sign +:+ d +:+ rest)
  = Some (if bool_decide (sign = "-"%string) then - decimal_value d else decimal_value d).
Proof.
  intros Hblanks Hsign Hne Hall Hrest. unfold CLib.strtol10_value.
  rewrite skip_spaces_blanks by done.
  destruct d as [|c d]; [done|].
  pose proof Hall as Hall'. simpl in Hall'. apply andb_true_iff in Hall' as [Hc _].
  destruct Hsign as [->|[->| ->]].
  - change (EmptyString +:+ String c d +:+ rest) with (String c (d +:+ rest)).
    cbn [CLib.skip_spaces]. rewrite (isspace_digit c Hc), (read_sign_digit c _ Hc).
    change (String c (d +:+ rest)) with (String c d +:+ rest).
    by rewrite (read_number _ _ 0 Hne Hall Hrest).
  - change ("+" +:+ String c d +:+ rest) with (String "+" (String c d +:+ rest)).
    cbn [CLib.skip_spaces]. change (CLib.isspace "+") with false. cbv iota.
    cbn [CLib.read_sign]. by rewrite (read_number _ _ 0 Hne Hall Hrest).
  - change ("-" +:+ String c d +:+ rest) with (String "-" (String c d +:+ rest)).
    cbn [CLib.skip_spaces]. change (CLib.isspace "-") with false. cbv iota.
    cbn [CLib.read_sign]. by rewrite (read_number _ _ 0 Hne Hall Hrest).
Qed.

Lemma GetProfileSeconds_of_strtol (parameter : string) (v : Z) (st : State) :
  CLib.strtol10_value parameter = Some v ->
  fst (GetProfileSeconds parameter st) = Normal (seconds_or_rejected v).
Proof.
  intros Hv. unfold GetProfileSeconds, seconds_or_rejected.
  case_bool_decide as Hempty; [subst; discriminate Hv|].
  unfold CLib.stoi. rewrite Hv. unfold CLib.INT_MIN, CLib.INT_MAX, kMaxProfileSeconds.
  destruct (Z.ltb_spec v (-2147483648)); simpl.
  { by rewrite bool_decide_eq_false_2 by lia. }
  destruct (Z.ltb_spec 2147483647 v); simpl.
  { by rewrite bool_decide_eq_false_2 by lia. }
  destruct (Z.ltb_spec v 0); simpl.
  { by rewrite bool_decide_eq_false_2 by lia. }
  destruct (Z.ltb_spec 600 v); simpl.
  { by rewrite bool_decide_eq_false_2 by lia. }
  by rewrite bool_decide_eq_true_2 by lia.
Qed.

Lemma strtol10_value_pretty (n : Z) : CLib.strtol10_value (pretty n) = Some n.
Proof.
  destruct n as [|p|p].
  - reflexivity.
  - destruct (pretty_N_digits (N.pos p)) as (d & Hd & Hne & Hall & Hval).
    change (pretty (Z.pos p)) with (pretty (N.pos p)). rewrite Hd.
    pose proof (strtol10_value_shape EmptyString EmptyString d EmptyString
                  eq_refl (or_introl eq_refl) Hne Hall eq_refl) as H.
    rewrite string_app_nil_r in H. change (EmptyString +:+ EmptyString +:+ d) with d in H.
    rewrite H, Hval. by rewrite bool_decide_eq_false_2.
  - destruct (pretty_N_digits (N.pos p)) as (d & Hd & Hne & Hall & Hval).
    change (pretty (Z.neg p)) with ("-" +:+ pretty (N.pos p)). rewrite Hd.
    pose proof (strtol10_value_shape EmptyString "-" d EmptyString
                  eq_refl (or_intror (or_intror eq_refl)) Hne Hall eq_refl) as H.
    rewrite string_app_nil_r in H. change (EmptyString +:+ "-" +:+ d) with ("-" +:+ d) in H.
    rewrite H, Hval. rewrite bool_decide_eq_true_2 by done. f_equal.
Qed.

(** X15.  Decimal round trip of the seconds parameter: for every integer
    n, the parameter that spells n in decimal gives n when n is in
    [0, 600] and -1 otherwise, however large or negative n is. *)
Theorem GetProfileSeconds_reads_decimal (n : Z) (st : State) :
  fst (GetProfileSeconds (pretty n) st) = Normal (if bool_decide (0 <= n <= 600) then n else -1).
Proof.
  apply (GetProfileSeconds_of_strtol (pretty n) n st), strtol10_value_pretty.
Qed.

(** X16.  What [std::stoi] lets through: blanks before the number, a plus
    or minus sign, and any text after the digits are all ignored.  Such a
    parameter gives the signed value of its digits when that value is in
    [0, 600] and -1 otherwise; so a minus sign is accepted only before
    zero. *)
Theorem GetProfileSeconds_lenient (blanks sign d rest : string) (st : State) :
  all_blanks blanks = true ->
  sign = EmptyString \/ sign = "+"%string \/ sign = "-"%string ->
  d <> EmptyString ->
  all_decimal_digits d = true ->
  ends_number rest = true ->
  fst (GetProfileSeconds (blanks +:+ sign +:+ d +:+ rest) st)
  = Normal (seconds_or_rejected
              (if bool_decide (sign = "-"%string) then - decimal_value d
               else decimal_value d)).
Proof.
  intros Hblanks Hsign Hne Hall Hrest.
  by apply GetProfileSeconds_of_strtol, strtol10_value_shape.
Qed.

Lemma GetProfileSeconds_lenient_witness :
  fst (GetProfileSeconds (String "009"%char " " +:+ "+" +:+ "042" +:+ " seconds") idle)
  = Normal 42
  /\ fst (GetProfileSeconds ("" +:+ "-" +:+ "0" +:+ "") idle) = Normal 0
  /\ fst (GetProfileSeconds ("" +:+ "-" +:+ "5" +:+ "") idle) = Normal (-1).
Proof.
  split; [|split].
  - apply (GetProfileSeconds_lenient (String "009"%char " ") "+" "042" " seconds" idle);
      [reflexivity|by right; left|discriminate|reflexivity|reflexivity].
  - apply (GetProfileSeconds_lenient "" "-" "0" "" idle);
      [reflexivity|by right; right|discriminate|reflexivity|reflexivity].
  - apply (GetProfileSeconds_lenient "" "-" "5" "" idle);
      [reflexivity|by right; right|discriminate|reflexivity|reflexivity].
Defined.

(** ** Lines of the histogram *)

Lemma occurrences_digits (c : ascii) (d : string) :
  is_decimal_digit c = false -> all_decimal_digits d = true -> occurrences c d = O.
Proof.
  intros Hc. induction d as [|c' d IH]; simpl; [done|].
  intros [Hc' Hall]%andb_true_iff. rewrite (IH Hall).
  destruct (Ascii.eqb_spec c' c) as [->|]; [congruence|done].
Qed.

Lemma occurrences_pretty (c : ascii) (n : Z) :
  is_decimal_digit c = false -> c <> "-"%char -> occurrences c (pretty n) = O.
Proof.
  intros Hc Hminus. destruct n as [|p|p].
  - change (pretty 0) with "0"%string. by apply occurrences_digits.
  - destruct (pretty_N_digits (N.pos p)) as (d & Hd & _ & Hall & _).
    change (pretty (Z.pos p)) with (pretty (N.pos p)). rewrite Hd.
    by apply occurrences_digits.
  - destruct (pretty_N_digits (N.pos p)) as (d & Hd & _ & Hall & _).
    change (pretty (Z.neg p)) with ("-" +:+ pretty (N.pos p)). rewrite Hd.
    change ("-" +:+ d) with (String "-" d). cbn [occurrences].
    rewrite (occurrences_digits c d Hc Hall).
    by destruct (Ascii.eqb_spec "-"%char c) as [<-|].
Qed.

Lemma OnHeapHistogram_run (env : Env) (connection : HttpConnection) (st : State) :
  OnHeapHistogram env connection st
  = (Normal tt,
     set_trace (trace st ++
                [ConnSend (id connection)
                   (histogram_header env
                    +:+ concat_strings (map (bucket_line env)
                                            (bucket_indices (kMallocHistogramSize env))));
                 ConnShutdown (id connection)]) st).
Proof.
  unfold OnHeapHistogram, bind. rewrite !emit_run, set_trace_set_trace.
  rewrite (histogram_loop_lines env (kMallocHistogramSize env) 0).
  unfold put_str, put_int, histogram_header.
  fold (bucket_indices (kMallocHistogramSize env)).
  f_equal. destruct st; simpl. unfold set_trace; simpl.
  rewrite <- app_assoc. simpl. do 3 f_equal.
  change (EmptyString +:+ "blocks ") with "blocks "%string.
  by rewrite !string_app_assoc.
Qed.

Lemma concat_strings_app (l1 l2 : list string) :
  concat_strings (l1 ++ l2) = concat_strings l1 +:+ concat_strings l2.
Proof.
  induction l1 as [|x l1 IH]; [done|].
  cbn [app concat_strings fold_right]. fold (concat_strings (l1 ++ l2)).
  fold (concat_strings l1). by rewrite IH, string_app_assoc.
Qed.

Lemma newlines_of_bucket_lines (env : Env) (indices : list Z) :
  occurrences "010"%char (concat_strings (map (bucket_line env) indices)) = length indices.
Proof.
  induction indices as [|i indices IH]; [done|].
  cbn [map concat_strings fold_right length].
  fold (concat_strings (map (bucket_line env) indices)).
  rewrite occurrences_app, IH. unfold bucket_line.
  rewrite !occurrences_app, !occurrences_pretty by done. reflexivity.
Qed.

(** X17.  Whatever numbers the allocator reports, negative ones included,
    the histogram response consists of exactly [kMallocHistogramSize] + 2
    lines: it contains that many newline characters and ends with one. *)
Theorem OnHeapHistogram_line_count (env : Env) (connection : HttpConnection) (st : State) :
  exists body,
    OnHeapHistogram env connection st
    = (Normal tt,
       set_trace (trace st ++ [ConnSend (id connection) body;
                               ConnShutdown (id connection)]) st)
    /\ occurrences "010"%char body = (kMallocHistogramSize env + 2)%nat
    /\ exists text, body = text +:+ NL.
Proof.
  eexists. split; [apply OnHeapHistogram_run|]. split.
  - rewrite occurrences_app, newlines_of_bucket_lines, bucket_indices_length.
    unfold histogram_header. rewrite !occurrences_app, !occurrences_pretty by done.
    simpl. lia.
  - destruct (kMallocHistogramSize env) as [|k] eqn:Hk.
    + exists ("blocks " +:+ pretty (stats_blocks env) +:+ NL
              +:+ "total " +:+ pretty (stats_total env)).
      unfold histogram_header, bucket_indices. simpl.
      by rewrite !string_app_assoc, string_app_nil_r.
    + unfold bucket_indices. rewrite seq_S, !map_app, concat_strings_app.
      exists (histogram_header env
              +:+ concat_strings (map (bucket_line env) (map Z.of_nat (seq 0 k)))
              +:+ pretty (Z.of_nat (0 + k)) +:+ " "
              +:+ pretty (histogram_at env (Z.of_nat (0 + k)))).
      cbn [map concat_strings fold_right]. unfold bucket_line.
      by rewrite string_app_nil_r, !string_app_assoc.
Qed.

(** ** The completion task and the request after it *)

(** C3.  The CPU completion task takes the whole waiter set and leaves the
    member empty in one step under the lock; it then sends one body, the
    contents of the profile file or the empty string when the file cannot
    be read, to every waiter taken and shuts that connection down, once
    each and to no other connection; afterwards the waiter set is empty.
    The request that follows does not start a session: an accepted GET
    then takes the first-joiner path, where it starts the profiler and
    ends in the fault of the scheduling step, with no timer registered and
    the connection not inserted, whatever its seconds and on whatever
    thread. *)
Theorem OnProfileComplete_then_next_request_faults (env : Env) (st : State) :
  let output := ReadFileToString env kProfileFile in
  let waiters := connections_ st in
  let deliveries := flat_map (delivery output) (in_order waiters) in
  let st' := set_trace (trace st ++ [ProfilerFlushCall; ProfilerStopCall] ++ deliveries)
                       (set_connections_ ∅ st) in
  OnProfileComplete env st = (Normal tt, st')
  /\ swap_with_connections_ ∅ st = (Normal waiters, set_connections_ ∅ st)
  /\ output = match file_contents env kProfileFile with
              | Some data => data
              | None => EmptyString
              end
  /\ (forall c, count (is_send c output) deliveries = once_if (bool_decide (c ∈ waiters)))
  /\ (forall c, count (is_send_to c) deliveries = once_if (bool_decide (c ∈ waiters)))
  /\ (forall c, count (is_shutdown_of c) deliveries = once_if (bool_decide (c ∈ waiters)))
  /\ connections_ st' = ∅
  /\ heap_connections_ st' = heap_connections_ st
  /\ timers st' = timers st
  /\ (forall env' connection,
        accepted_request connection ->
        OnProfile env' connection st'
        = (Crashed (first_joiner_fault env'),
           set_trace (trace st' ++ first_joiner_calls env') st'))
  /\ OnProfile loop_thread_env (get_profile 7 "5")
       (snd (OnProfileComplete loop_thread_env cpu_session_running))
     = (Crashed (CheckFailed "!EventLoop::CurrentLoopInThisThread()"),
        set_trace [ProfilerFlushCall; ProfilerStopCall;
                   ServerSend 3 "profile-bytes"; ServerShutdown 3;
                   ProfilerStartCall "profile.dat"; ProfilerRegisterThreadCall] idle).
Proof.
  intros output waiters deliveries st'.
  split; [apply OnProfileComplete_run|].
  split; [reflexivity|].
  split; [reflexivity|].
  split.
  { intros c. apply (count_in_order (fun c => is_send c output));
      [apply is_send_other|apply is_send_self]. }
  split.
  { intros c. apply (count_in_order is_send_to);
      [apply is_send_to_other|apply is_send_to_self]. }
  split.
  { intros c. apply (count_in_order is_shutdown_of);
      [apply is_shutdown_of_other|apply is_shutdown_of_self]. }
  split; [by destruct st|].
  split; [by destruct st|].
  split; [by destruct st|].
  split.
  - intros env' connection Hacc.
    destruct (accepted_request_run env' connection st' Hacc) as [v ->].
    apply OnProfile_locked_first_joiner_run. by destruct st.
  - rewrite OnProfileComplete_run. vm_compute. reflexivity.
Qed.
